(** * AI Resume & Portfolio Builder: the document pipeline of [app/app.py]

    A shallow embedding of the text normaliser ([clean_text]), the content
    generators, the Word, PDF and HTML exporters and the Streamlit submit
    handler, with the properties of the specification proved about them.

    Python strings are sequences of Unicode code points; they are modelled
    as lists of code points.  What the program takes from its libraries
    (the Unicode case and digit tables behind [str.lower] and [\d], the
    scikit-learn model, the python-docx and reportlab serialisers) is an
    interface whose laws are written out, with a concrete instance. *)

From Stdlib Require Import Ascii String.
From Stdlib Require Import List Bool NArith ZArith QArith Qround Lia Lqa.
Import ListNotations.

Close Scope Q_scope.
Set Implicit Arguments.

(** ** Strings *)

Definition char := N.
Definition str := list char.

(** An ASCII literal of the source as a list of code points. *)
Definition lit (s : String.string) : str :=
  map N_of_ascii (list_ascii_of_string s).

Definition nl : str := [10%N].
Definition space : char := 32%N.

Definition char_eqb (a b : char) : bool := N.eqb a b.

Fixpoint str_eqb (a b : str) : bool :=
  match a, b with
  | [], [] => true
  | x :: a', y :: b' => char_eqb x y && str_eqb a' b'
  | _, _ => false
  end.

Section CharClasses.
Local Open Scope N_scope.

Definition is_ascii (c : char) : bool := c <? 128.
Definition is_ascii_lower (c : char) : bool := (97 <=? c) && (c <=? 122).
Definition is_ascii_upper (c : char) : bool := (65 <=? c) && (c <=? 90).
Definition is_ascii_digit (c : char) : bool := (48 <=? c) && (c <=? 57).

(** [str.lower] on an ASCII character. *)
Definition ascii_lower (c : char) : char :=
  if is_ascii_upper c then c + 32 else c.

(** Python's [Py_UNICODE_ISSPACE]: what [str.strip()] strips and what [\s]
    matches in a [str] pattern. *)
Definition isspace (c : char) : bool :=
  ((9 <=? c) && (c <=? 13)) || ((28 <=? c) && (c <=? 32))
  || (c =? 133) || (c =? 160) || (c =? 5760)
  || ((8192 <=? c) && (c <=? 8202))
  || (c =? 8232) || (c =? 8233) || (c =? 8239) || (c =? 8287)
  || (c =? 12288).

End CharClasses.

(** The part of the Unicode character database the program reaches through
    [str.lower()] and the [\d] class of [re]: the full table is not in the
    source; these are the facts about it the pipeline depends on. *)
Class Unicode := {
  lower : str -> str;
  isdecimal : char -> bool;
  (** on ASCII text, lowering is character-wise A-Z to a-z *)
  lower_ascii : forall s,
    forallb is_ascii s = true -> lower s = map ascii_lower s;
  (** no lowercase mapping yields an ASCII capital *)
  lower_no_upper : forall s,
    forallb (fun c => negb (is_ascii_upper c)) (lower s) = true;
  (** the only ASCII decimal digits are 0-9 *)
  isdecimal_ascii : forall c,
    is_ascii c = true -> isdecimal c = is_ascii_digit c
}.

(** ** Regular-expression substitutions used by [clean_text] *)

(** [re.sub("[...]", repl, s)] for a one-character class: every matching
    character is replaced. *)
Definition re_sub_class (cls : char -> bool) (repl : str) (s : str) : str :=
  flat_map (fun c => if cls c then repl else [c]) s.

(** [re.sub("C+", repl, s)]: the scan replaces every maximal run of
    characters of the class by one [repl]; [in_match] tells that the
    previous character already belongs to the current match. *)
Fixpoint re_sub_plus_from (cls : char -> bool) (repl : str)
    (in_match : bool) (s : str) : str :=
  match s with
  | [] => []
  | c :: s' =>
      if cls c
      then (if in_match then [] else repl) ++ re_sub_plus_from cls repl true s'
      else c :: re_sub_plus_from cls repl false s'
  end.

Definition re_sub_plus (cls : char -> bool) (repl : str) (s : str) : str :=
  re_sub_plus_from cls repl false s.

(** ** TEXT CLEANING *)

Section TextCleaning.
Context {U : Unicode}.

(** The class [[^a-zA-Z\s]]. *)
Definition not_letter_or_space (c : char) : bool :=
  negb (is_ascii_lower c || is_ascii_upper c || isspace c).

Definition clean_text (text : str) : str :=
  let text := lower text in
  let text := re_sub_plus isdecimal [] text in
  let text := re_sub_class not_letter_or_space [] text in
  let text := re_sub_plus isspace (lit " ") text in
  text.

End TextCleaning.

(** Positions of a string: two neighbouring characters that are both the
    space character. *)
Fixpoint adjacent_spaces (s : str) : bool :=
  match s with
  | a :: (b :: _) as t => (char_eqb a space && char_eqb b space) || adjacent_spaces t
  | _ => false
  end.

Definition starts_with_space (s : str) : bool :=
  match s with
  | c :: _ => char_eqb c space
  | [] => false
  end.

(** The alphabet of normalised text. *)
Definition clean_char (c : char) : bool := is_ascii_lower c || char_eqb c space.

(** ** An instance of the tables: Basic Latin, with the two characters
    outside ASCII whose lowercase form contains an ASCII letter (U+0130 and
    the Kelvin sign U+212A) and the Arabic-Indic digits. *)
Module BasicLatin.
Local Open Scope N_scope.

Definition lower_char (c : char) : str :=
  if c =? 304 then [105; 775]
  else if c =? 8490 then [107]
  else [ascii_lower c].

Definition lower (s : str) : str := flat_map lower_char s.

Definition isdecimal (c : char) : bool :=
  is_ascii_digit c || ((1632 <=? c) && (c <=? 1641)).

End BasicLatin.

(** ** CONTENT GENERATORS *)

Definition generate_resume (role : str) : str :=
  lit "PROFESSIONAL RESUME" ++ nl ++ nl
  ++ lit "Target Role: " ++ role ++ nl ++ nl
  ++ lit "PROFESSIONAL SUMMARY" ++ nl
  ++ lit "Motivated professional seeking a role in this domain." ++ nl
  ++ lit "Strong foundation in technical skills and problem solving." ++ nl ++ nl
  ++ lit "CORE SKILLS" ++ nl
  ++ lit "- Python, Machine Learning, Streamlit, Data Analysis" ++ nl
  ++ lit "- Communication, Teamwork, Problem Solving" ++ nl
  ++ lit "- Tools: Git, Jupyter Notebook, VS Code" ++ nl ++ nl
  ++ lit "PROJECT EXPERIENCE" ++ nl
  ++ lit "AI Resume & Portfolio Builder" ++ nl
  ++ lit "- Built a ML model to classify resumes." ++ nl
  ++ lit "- Deployed an interactive app using Streamlit." ++ nl ++ nl
  ++ lit "EDUCATION" ++ nl
  ++ lit "Bachelor" ++ [8217%N] ++ lit "s Degree in a relevant discipline" ++ nl ++ nl
  ++ lit "CERTIFICATIONS" ++ nl
  ++ lit "- Python for Data Science" ++ nl
  ++ lit "- Machine Learning Fundamentals" ++ nl ++ nl
  ++ lit "ADDITIONAL INFORMATION" ++ nl
  ++ lit "Strong interest in continuous learning and AI applications." ++ nl.

Definition generate_cover_letter (role : str) : str :=
  lit "Dear Hiring Manager," ++ nl ++ nl
  ++ lit "I am applying for the " ++ role ++ lit " position at your organization." ++ nl
  ++ lit "I have strong technical skills and hands-on project experience." ++ nl ++ nl
  ++ lit "I recently built an AI Resume & Portfolio Builder using" ++ nl
  ++ lit "machine learning and Streamlit to automate document creation." ++ nl ++ nl
  ++ lit "I am motivated, adaptable, and eager to contribute effectively." ++ nl ++ nl
  ++ lit "Thank you for your time and consideration." ++ nl ++ nl
  ++ lit "Sincerely," ++ nl
  ++ lit "Applicant" ++ nl.

Definition generate_portfolio (role : str) : str :=
  lit "PORTFOLIO PROFILE " ++ [8211%N] ++ lit " " ++ role ++ nl ++ nl
  ++ lit "ABOUT ME" ++ nl
  ++ lit "Aspiring professional with strong interest in AI and software." ++ nl ++ nl
  ++ lit "TECHNICAL SKILLS" ++ nl
  ++ lit "- Python, SQL" ++ nl
  ++ lit "- Machine Learning, NLP" ++ nl
  ++ lit "- Streamlit" ++ nl
  ++ lit "- Git, Jupyter, VS Code" ++ nl ++ nl
  ++ lit "PROJECTS" ++ nl
  ++ lit "AI Resume & Portfolio Builder" ++ nl
  ++ lit "- Built a resume classification model." ++ nl
  ++ lit "- Integrated into a Streamlit web app." ++ nl ++ nl
  ++ lit "CAREER OBJECTIVE" ++ nl
  ++ lit "To apply technical skills, grow professionally, and" ++ nl
  ++ lit "contribute to innovative projects." ++ nl ++ nl
  ++ lit "CONTACT" ++ nl
  ++ lit "Email: your_email@example.com" ++ nl
  ++ lit "GitHub: https://github.com/yourprofile" ++ nl
  ++ lit "LinkedIn: https://linkedin.com/in/yourprofile" ++ nl.

(** ** STAGE 2: JOB CUSTOMIZATION *)

(** [str.strip()]: leading and trailing whitespace removed. *)
Fixpoint lstrip (s : str) : str :=
  match s with
  | c :: s' => if isspace c then lstrip s' else s
  | [] => []
  end.

Definition rstrip (s : str) : str := rev (lstrip (rev s)).

Definition strip (s : str) : str := rstrip (lstrip s).

Definition customize_for_job (role resume_input job_desc : str) : str :=
  if str_eqb (strip job_desc) (lit "")
  then generate_resume role
  else
    lit "PROFESSIONAL RESUME (CUSTOMIZED)" ++ nl ++ nl
    ++ lit "Target Role: " ++ role ++ nl ++ nl
    ++ lit "CUSTOMIZED SUMMARY" ++ nl
    ++ lit "This resume has been tailored to align with the job description." ++ nl ++ nl
    ++ lit "JOB DESCRIPTION KEY REQUIREMENTS" ++ nl
    ++ job_desc ++ nl ++ nl
    ++ lit "CANDIDATE PROFILE" ++ nl
    ++ resume_input ++ nl ++ nl
    ++ lit "KEY ALIGNMENT" ++ nl
    ++ lit "- Skills aligned with job requirements." ++ nl
    ++ lit "- Keywords optimized for ATS systems." ++ nl
    ++ lit "- Content adjusted to match role expectations." ++ nl.

(** ** STAGE 3: PORTFOLIO WEBSITE *)

Definition generate_portfolio_website (role resume_input : str) : str :=
  lit "<!DOCTYPE html>" ++ nl
  ++ lit "<html lang='en'>" ++ nl
  ++ lit "<head>" ++ nl
  ++ lit "  <meta charset='UTF-8'>" ++ nl
  ++ lit "  <meta name='viewport' content='width=device-width, "
  ++ lit "initial-scale=1.0'>" ++ nl
  ++ lit "  <title>Portfolio - " ++ role ++ lit "</title>" ++ nl
  ++ lit "</head>" ++ nl
  ++ lit "<body>" ++ nl ++ nl
  ++ lit "<h1>Portfolio " ++ [8211%N] ++ lit " " ++ role ++ lit "</h1>" ++ nl ++ nl
  ++ lit "<pre>" ++ nl
  ++ resume_input ++ nl
  ++ lit "</pre>" ++ nl ++ nl
  ++ lit "</body>" ++ nl
  ++ lit "</html>" ++ nl.

(** ** STAGE 1: FILE EXPORT *)

(** [str.split(sep)] for a one-character separator: the pieces between the
    separators, the empty pieces included. *)
Fixpoint split (sep : char) (s : str) : list str :=
  match s with
  | [] => [[]]
  | c :: s' =>
      if char_eqb c sep then [] :: split sep s'
      else match split sep s' with
           | piece :: pieces => (c :: piece) :: pieces
           | [] => [[c]]
           end
  end.

Definition newline : char := 10%N.

(** An in-memory [BytesIO]: its content and the stream position. *)
Record BytesIO := { getvalue : list Byte.byte; tell : nat }.

Definition BytesIO_new : BytesIO := {| getvalue := []; tell := 0 |}.

Definition BytesIO_write (buffer : BytesIO) (data : list Byte.byte) : BytesIO :=
  {| getvalue := firstn (tell buffer) (getvalue buffer) ++ data
                 ++ skipn (tell buffer + length data) (getvalue buffer);
     tell := tell buffer + length data |}.

Definition seek (buffer : BytesIO) (pos : nat) : BytesIO :=
  {| getvalue := getvalue buffer; tell := pos |}.

(** What a call returns: a value, or the exception it raised. *)
Inductive outcome (A : Type) :=
| Done (a : A)
| Raised (exception : str).

(** python-docx keeps a document as XML, through lxml, and lxml takes no
    string with a character XML cannot hold: a control character other
    than tab, line feed and carriage return, a surrogate, U+FFFE or U+FFFF.
    On such a string it raises [ValueError] (for a lone surrogate its
    subclass [UnicodeEncodeError], raised when the string is encoded). *)
Definition xml_compatible (c : char) : bool :=
  (((c =? 9) || (c =? 10) || (c =? 13) || (32 <=? c))
   && negb ((55296 <=? c) && (c <=? 57343))
   && negb ((c =? 65534) || (c =? 65535)))%N.

(** The content of a run: text, tab and line-break elements. *)
Inductive run_item :=
| RunText (text : str)
| RunTab
| RunBreak.

Definition run_content := list run_item.

Record paragraph := { p_runs : list run_content; p_style : option str }.

Record document := { paragraphs : list paragraph }.

(** [run.text] and [paragraph.text]: a tab element reads as a tab, a line
    break as a line feed. *)
Definition item_text (item : run_item) : str :=
  match item with
  | RunText text => text
  | RunTab => [9%N]
  | RunBreak => [10%N]
  end.

Definition run_text (r : run_content) : str := flat_map item_text r.

Definition p_text (p : paragraph) : str := flat_map run_text (p_runs p).

(** A fresh [Document()] has no paragraph. *)
Definition Document : document := {| paragraphs := [] |}.

(** The text pending in the buffer becomes a text element, if there is
    any; this is where lxml checks the string. *)
Definition flush (r : run_content) (bfr : str) : outcome run_content :=
  match bfr with
  | [] => Done r
  | _ :: _ =>
      if forallb xml_compatible bfr
      then Done (r ++ [RunText bfr])
      else Raised run_content (lit "ValueError")
  end.

(** [run.text = text]: the characters go to the buffer one by one; a tab
    becomes a tab element, a carriage return or a line feed a line break,
    each after the buffer is flushed. *)
Fixpoint add_text (r : run_content) (bfr : str) (text : str) : outcome run_content :=
  match text with
  | [] => flush r bfr
  | char :: text' =>
      if (char =? 9)%N then
        match flush r bfr with
        | Done r' => add_text (r' ++ [RunTab]) [] text'
        | Raised _ e => Raised run_content e
        end
      else if (char =? 13)%N || (char =? 10)%N then
        match flush r bfr with
        | Done r' => add_text (r' ++ [RunBreak]) [] text'
        | Raised _ e => Raised run_content e
        end
      else add_text r (bfr ++ [char]) text'
  end.

(** [doc.add_paragraph(text)]: a paragraph of the default style at the end
    of the document, with one run holding the text if the text is not
    empty. *)
Definition add_paragraph (doc : document) (text : str) : outcome document :=
  match text with
  | [] =>
      Done {| paragraphs := paragraphs doc ++ [{| p_runs := []; p_style := None |}] |}
  | _ :: _ =>
      match add_text [] [] text with
      | Done r =>
          Done {| paragraphs := paragraphs doc ++ [{| p_runs := [r]; p_style := None |}] |}
      | Raised _ e => Raised document e
      end
  end.

(** reportlab: the drawing operations a canvas has received. *)
Inductive canvas_op :=
| DrawString (x y : Q) (text : str)
| ShowPage.

Record canvas := { pagesize : Q * Q; code : list canvas_op }.

Definition Canvas (pagesize : Q * Q) : canvas :=
  {| pagesize := pagesize; code := [] |}.

Definition drawString (pdf : canvas) (x y : Q) (text : str) : canvas :=
  {| pagesize := pagesize pdf; code := code pdf ++ [DrawString x y text] |}.

Definition showPage (pdf : canvas) : canvas :=
  {| pagesize := pagesize pdf; code := code pdf ++ [ShowPage] |}.

(** [reportlab.lib.units] and [reportlab.lib.pagesizes.A4].  reportlab
    holds lengths as binary64 numbers; here they are exact rationals.  The
    cursor of an A4 page never comes closer than 5 units to the margin it is
    compared with, and on a page of a whole number of units every value is
    a whole number, so the comparisons come out the same. *)
Definition inch : Q := 72.
Definition mm : Q := inch / 25.4.
Definition A4 : Q * Q := (210 * mm, 297 * mm)%Q.

Definition Qlt_bool (x y : Q) : bool := negb (Qle_bool y x).

(** What serialising costs nothing to leave abstract: the bytes python-docx
    and reportlab write.  A saved file is never empty (a .docx is a ZIP
    archive, a PDF starts with its header). *)
Class Serializers := {
  docx_save : document -> list Byte.byte;
  pdf_save : canvas -> list Byte.byte;
  docx_save_nonempty : forall doc, docx_save doc <> [];
  pdf_save_nonempty : forall pdf, pdf_save pdf <> []
}.

(** The loop of [generate_word_file]: the first paragraph that cannot be
    added ends it. *)
Fixpoint add_paragraphs (doc : document) (lines : list str) : outcome document :=
  match lines with
  | [] => Done doc
  | line :: rest =>
      match add_paragraph doc line with
      | Done doc' => add_paragraphs doc' rest
      | Raised _ e => Raised document e
      end
  end.

Definition word_document (text : str) : outcome document :=
  add_paragraphs Document (split newline text).

(** The loop of [generate_pdf_file]: the canvas and the cursor are threaded
    through the lines. *)
Fixpoint pdf_draw_lines (height : Q) (pdf : canvas) (y_position : Q)
    (lines : list str) : canvas * Q :=
  match lines with
  | [] => (pdf, y_position)
  | line :: rest =>
      let pdf := drawString pdf 40 y_position line in
      let y_position := (y_position - 14)%Q in
      if Qlt_bool y_position 40
      then pdf_draw_lines height (showPage pdf) (height - 40)%Q rest
      else pdf_draw_lines height pdf y_position rest
  end.

Definition pdf_canvas (pagesize : Q * Q) (text : str) : canvas :=
  let pdf := Canvas pagesize in
  let height := snd pagesize in
  let y_position := (height - 40)%Q in
  fst (pdf_draw_lines height pdf y_position (split newline text)).

Section FileExport.
Context {Ser : Serializers}.

Definition generate_word_file (text : str) : outcome BytesIO :=
  match word_document text with
  | Done doc =>
      let buffer := BytesIO_new in
      let buffer := BytesIO_write buffer (docx_save doc) in
      Done (seek buffer 0)
  | Raised _ e => Raised BytesIO e
  end.

Definition generate_pdf_file_on (pagesize : Q * Q) (text : str) : BytesIO :=
  let buffer := BytesIO_new in
  let pdf := pdf_canvas pagesize text in
  let buffer := BytesIO_write buffer (pdf_save pdf) in
  seek buffer 0.

Definition generate_pdf_file (text : str) : BytesIO :=
  generate_pdf_file_on A4 text.

End FileExport.

(** ** STREAMLIT UI: the submit handler *)

(** The entries of the select box. *)
Inductive menu_option :=
| PredictJobCategory
| GenerateResume
| GenerateCoverLetter
| GeneratePortfolio.

Definition option_label (o : menu_option) : str :=
  match o with
  | PredictJobCategory => lit "Predict Job Category"
  | GenerateResume => lit "Generate Resume"
  | GenerateCoverLetter => lit "Generate Cover Letter"
  | GeneratePortfolio => lit "Generate Portfolio"
  end.

(** The scikit-learn pair loaded at start-up: [tfidf.transform] maps each
    document of its argument to a row, [model.predict] each row to a label.
    The model file is not in the source; its labels are the category names
    it was trained on, taken here to be text XML can hold. *)
Class Classifier := {
  features : Type;
  vectorize : str -> features;
  classify : features -> str;
  classify_xml_compatible : forall x, forallb xml_compatible (classify x) = true
}.

(** What a download button carries: a buffer or a string. *)
Inductive payload :=
| Bytes (buffer : BytesIO)
| Text (s : str).

Section Handler.
Context {U : Unicode} {C : Classifier} {Ser : Serializers}.

(** What a run of the handler does to the outside: the Streamlit elements
    it emits and the calls it makes to the model, in order. *)
Inductive event :=
| Warning (body : str)
| Markdown (body : str) (unsafe_allow_html : bool)
| Info (body : str)
| TextArea (label value : str) (height : N)
| DownloadButton (label : str) (data : payload) (file_name : str) (mime : option str)
| Transform (raw_documents : list str)
| Predict (X : list features).

Definition UI (A : Type) : Type := list event -> outcome A * list event.

Definition ret {A} (a : A) : UI A := fun log => (Done a, log).

Definition bind {A B} (m : UI A) (k : A -> UI B) : UI B :=
  fun log =>
    match m log with
    | (Done a, log') => k a log'
    | (Raised _ e, log') => (Raised B e, log')
    end.

Definition emit (e : event) : UI unit := fun log => (Done tt, log ++ [e]).

Definition raise {A} (e : str) : UI A := fun log => (Raised A e, log).

(** A call that may raise; what it raises ends the run. *)
Definition call {A} (o : outcome A) : UI A := fun log => (o, log).

Notation "x <- m ;; k" := (bind m (fun x => k))
  (at level 61, m at next level, right associativity).
Notation "m ;; k" := (bind m (fun _ => k))
  (at level 61, right associativity).

Definition st_warning (body : str) : UI unit := emit (Warning body).
Definition st_markdown (body : str) (unsafe_allow_html : bool) : UI unit :=
  emit (Markdown body unsafe_allow_html).
Definition st_info (body : str) : UI unit := emit (Info body).
Definition st_text_area (label value : str) (height : N) : UI unit :=
  emit (TextArea label value height).
Definition st_download_button (label : str) (data : payload) (file_name : str)
    (mime : option str) : UI unit :=
  emit (DownloadButton label data file_name mime).

Definition tfidf_transform (raw_documents : list str) : UI (list features) :=
  emit (Transform raw_documents) ;; ret (map vectorize raw_documents).

Definition model_predict (X : list features) : UI (list str) :=
  emit (Predict X) ;; ret (map classify X).

(** [prediction[0]] *)
Definition first_item (prediction : list str) : UI str :=
  match prediction with
  | label :: _ => ret label
  | [] => raise (lit "IndexError")
  end.

(** The body of [if st.button(...)], run when the button was pressed. *)
Definition on_submit (option : menu_option) (resume_text job_description : str)
    : UI unit :=
  if str_eqb (strip resume_text) (lit "")
  then st_warning (lit "Please enter resume text.")
  else
    let cleaned_input := clean_text resume_text in
    vectorized_input <- tfidf_transform [cleaned_input] ;;
    prediction <- model_predict vectorized_input ;;
    predicted_role <- first_item prediction ;;
    st_markdown (lit "<div class='result-box'>"
                 ++ lit "Predicted Job Category: " ++ predicted_role
                 ++ lit "</div>") true ;;
    match option with
    | PredictJobCategory =>
        st_info (lit "Job category predicted successfully.")
    | GenerateResume =>
        let resume_output :=
          customize_for_job predicted_role resume_text job_description in
        st_text_area (lit "Generated Resume") resume_output 350 ;;
        word_file <- call (generate_word_file resume_output) ;;
        st_download_button (lit "Download Resume (Word)")
          (Bytes word_file) (lit "resume.docx") None ;;
        st_download_button (lit "Download Resume (PDF)")
          (Bytes (generate_pdf_file resume_output)) (lit "resume.pdf") None
    | GenerateCoverLetter =>
        let cover_output := generate_cover_letter predicted_role in
        st_text_area (lit "Generated Cover Letter") cover_output 350 ;;
        word_file <- call (generate_word_file cover_output) ;;
        st_download_button (lit "Download Cover Letter (Word)")
          (Bytes word_file) (lit "cover_letter.docx") None ;;
        st_download_button (lit "Download Cover Letter (PDF)")
          (Bytes (generate_pdf_file cover_output)) (lit "cover_letter.pdf") None
    | GeneratePortfolio =>
        let portfolio_output := generate_portfolio predicted_role in
        st_text_area (lit "Generated Portfolio") portfolio_output 350 ;;
        word_file <- call (generate_word_file portfolio_output) ;;
        st_download_button (lit "Download Portfolio (Word)")
          (Bytes word_file) (lit "portfolio.docx") None ;;
        st_download_button (lit "Download Portfolio (PDF)")
          (Bytes (generate_pdf_file portfolio_output)) (lit "portfolio.pdf") None ;;
        let website_html := generate_portfolio_website predicted_role resume_text in
        st_download_button (lit "Download Portfolio Website (HTML)")
          (Text website_html) (lit "portfolio.html") (Some (lit "text/html"))
    end.

(** One run of the script from the submit button on. *)
Definition submit (clicked : bool) (option : menu_option)
    (resume_text job_description : str) : UI unit :=
  if clicked then on_submit option resume_text job_description else ret tt.

(** What a run leaves on the page, starting from nothing. *)
Definition run {A} (m : UI A) : outcome A * list event := m [].

Definition trace {A} (m : UI A) : list event := snd (run m).

(** Readings of a trace. *)
Definition artifacts (log : list event) : list (str * payload) :=
  flat_map (fun e => match e with
                     | DownloadButton _ data file_name _ => [(file_name, data)]
                     | _ => []
                     end) log.

Definition predict_calls (log : list event) : list (list features) :=
  flat_map (fun e => match e with Predict X => [X] | _ => [] end) log.

Definition transform_calls (log : list event) : list (list str) :=
  flat_map (fun e => match e with Transform d => [d] | _ => [] end) log.

Definition text_areas (log : list event) : list (str * str) :=
  flat_map (fun e => match e with
                     | TextArea label value _ => [(label, value)]
                     | _ => []
                     end) log.

End Handler.

(** Readings of a canvas: the page breaks it holds, where the first one
    falls, and the page and position of every line drawn. *)
Fixpoint page_breaks (ops : list canvas_op) : nat :=
  match ops with
  | [] => 0
  | ShowPage :: ops' => S (page_breaks ops')
  | DrawString _ _ _ :: ops' => page_breaks ops'
  end.

Fixpoint first_break_after (ops : list canvas_op) : option nat :=
  match ops with
  | [] => None
  | ShowPage :: _ => Some 0
  | DrawString _ _ _ :: ops' => option_map S (first_break_after ops')
  end.

Fixpoint placements (page : nat) (ops : list canvas_op) : list (nat * Q * Q * str) :=
  match ops with
  | [] => []
  | ShowPage :: ops' => placements (S page) ops'
  | DrawString x y text :: ops' => (page, x, y, text) :: placements page ops'
  end.

(** The lines one page takes before the cursor falls below the bottom
    margin: the cursor starts at [height - 40] and the test comes after the
    step of 14. *)
Definition lines_per_page (height : Q) : nat :=
  S (Z.to_nat (Qfloor ((height - 80) / 14))).

(** The count the specification gives. *)
Definition spec_lines_per_page (height : Q) : nat :=
  Z.to_nat (Qfloor ((height - 80) / 14)).

(** ** Auxiliary definitions of the proofs *)

(** The inverse of [split]: the pieces with the separator between them. *)
Fixpoint join (sep : char) (pieces : list str) : str :=
  match pieces with
  | [] => []
  | [p] => p
  | p :: ps => p ++ sep :: join sep ps
  end.

(** What [add_paragraph] stores for a line and how it reads back: a
    carriage return, kept as a line break, reads as a line feed. *)
Definition carriage_return : char := 13%N.

Definition read_back (line : str) : str :=
  map (fun c => if char_eqb c carriage_return then newline else c) line.

(** What [add_paragraph] leaves for a line. *)
Definition holds_line (line : str) (p : paragraph) : Prop :=
  p_style p = None
  /\ p_text p = read_back line
  /\ (line = [] -> p_runs p = []).

Section Branches.
Context {U : Unicode} {C : Classifier} {Ser : Serializers}.

(** What every run on a resume text that is not blank starts with: the two
    calls to the model and the result box. *)
Definition classified (resume_text : str) : list event :=
  [Transform [clean_text resume_text];
   Predict [vectorize (clean_text resume_text)];
   Markdown (lit "<div class='result-box'>" ++ lit "Predicted Job Category: "
             ++ classify (vectorize (clean_text resume_text)) ++ lit "</div>") true].

(** How a branch that shows a text and offers its files ends: with the
    files when the Word export returns, with the exception, after the text
    area alone, when it raises. *)
Definition exported (before : list event)
    (area shown word_label word_name pdf_label pdf_name : str)
    (after : list event) : outcome unit * list event :=
  match generate_word_file shown with
  | Done word_file =>
      (Done tt,
       before
       ++ [TextArea area shown 350;
           DownloadButton word_label (Bytes word_file) word_name None;
           DownloadButton pdf_label (Bytes (generate_pdf_file shown)) pdf_name None]
       ++ after)
  | Raised _ e => (Raised unit e, before ++ [TextArea area shown 350])
  end.

End Branches.

(** The operations the loop of [generate_pdf_file] adds to a canvas. *)
Definition drawn (height y_position : Q) (lines : list str) : list canvas_op :=
  code (fst (pdf_draw_lines height (Canvas (0, height)%Q) y_position lines)).

(** The cursor after [j] lines of a page. *)
Definition cursor_at (height : Q) (y : Q) (j : nat) : Prop :=
  j < lines_per_page height
  /\ (y == height - 40 - 14 * inject_Z (Z.of_nat j))%Q.

(** The letters [a-zA-Z] of the pattern of [clean_text]. *)
Definition is_ascii_letter (c : char) : bool := is_ascii_lower c || is_ascii_upper c.

(** The strings a canvas draws, in order, and where. *)
Definition drawn_strings (ops : list canvas_op) : list str :=
  flat_map (fun op => match op with
                      | DrawString _ _ text => [text]
                      | ShowPage => []
                      end) ops.

Definition within_margins (height : Q) (op : canvas_op) : Prop :=
  match op with
  | DrawString x y _ => x = 40%Q /\ (40 <= y)%Q /\ (y <= height - 40)%Q
  | ShowPage => True
  end.

Definition is_show_page (op : canvas_op) : bool :=
  match op with
  | ShowPage => true
  | DrawString _ _ _ => false
  end.

(** The file names a run of each entry offers. *)
Definition offered_files (o : menu_option) : list str :=
  match o with
  | PredictJobCategory => []
  | GenerateResume => [lit "resume.docx"; lit "resume.pdf"]
  | GenerateCoverLetter => [lit "cover_letter.docx"; lit "cover_letter.pdf"]
  | GeneratePortfolio => [lit "portfolio.docx"; lit "portfolio.pdf"; lit "portfolio.html"]
  end.

(** ** Stand-ins for the libraries: a text to try, a serialiser that writes
    a header and the text, and a classifier that looks at the length of the
    text. *)

(** A text with capitals, digits, punctuation, a tab, a no-break space, the
    Kelvin sign and an Arabic-Indic digit. *)
Definition sample_text : str :=
  lit "  Senior  Dev," ++ [9; 160; 8490; 1637]%N ++ lit " 5 yrs @ ACME!" ++ nl.

Definition byte_of_char (c : char) : Byte.byte :=
  match Byte.of_N (c mod 256)%N with
  | Some b => b
  | None => Byte.x00
  end.

Definition sample_docx_save (doc : document) : list Byte.byte :=
  [Byte.x50; Byte.x4b; Byte.x03; Byte.x04]
  ++ flat_map (fun p => map byte_of_char (p_text p) ++ [Byte.x0a]) (paragraphs doc).

Definition sample_pdf_save (pdf : canvas) : list Byte.byte :=
  [Byte.x25; Byte.x50; Byte.x44; Byte.x46]
  ++ flat_map (fun op => match op with
                         | DrawString _ _ text => map byte_of_char text ++ [Byte.x0a]
                         | ShowPage => [Byte.x0c]
                         end) (code pdf).

Definition sample_classifier : Classifier :=
  {| features := nat;
     vectorize := fun text => length text;
     classify := fun n => if n <? 20 then lit "HR" else lit "Data Science";
     classify_xml_compatible := fun n =>
       match n <? 20 as b
         return forallb xml_compatible (if b then lit "HR" else lit "Data Science") = true
       with
       | true => eq_refl
       | false => eq_refl
       end |}.

(** * Properties *)

(** ** Characters *)

Lemma char_eqb_eq (a b : char) : char_eqb a b = true <-> a = b.
Proof. apply N.eqb_eq. Qed.

Lemma str_eqb_eq (a b : str) : str_eqb a b = true <-> a = b.
Proof.
  revert b; induction a as [|x a IH]; intros [|y b]; simpl; split;
    try congruence; try reflexivity.
  - intros H. apply andb_true_iff in H as [Hx Hab].
    apply char_eqb_eq in Hx. apply IH in Hab. congruence.
  - intros H. injection H as -> ->.
    apply andb_true_iff. split; [apply char_eqb_eq | apply IH]; reflexivity.
Qed.

Ltac char_cases :=
  unfold clean_char, not_letter_or_space, isspace, is_ascii, is_ascii_lower,
    is_ascii_upper, is_ascii_digit, ascii_lower, char_eqb, space in *;
  repeat match goal with
  | H : _ && _ = true |- _ => apply andb_true_iff in H; destruct H
  | H : _ || _ = true |- _ => apply orb_true_iff in H; destruct H
  | H : _ || _ = false |- _ => apply orb_false_iff in H; destruct H
  | H : negb _ = true |- _ => apply negb_true_iff in H
  | H : negb _ = false |- _ => apply negb_false_iff in H
  | H : (_ <=? _)%N = true |- _ => apply N.leb_le in H
  | H : (_ <=? _)%N = false |- _ => apply N.leb_gt in H
  | H : (_ <? _)%N = true |- _ => apply N.ltb_lt in H
  | H : (_ <? _)%N = false |- _ => apply N.ltb_ge in H
  | H : (_ =? _)%N = true |- _ => apply N.eqb_eq in H
  | H : (_ =? _)%N = false |- _ => apply N.eqb_neq in H
  end.

Lemma clean_char_cases (c : char) :
  clean_char c = true <-> (97 <= c <= 122)%N \/ c = space.
Proof.
  unfold clean_char, is_ascii_lower, char_eqb, space.
  rewrite orb_true_iff, andb_true_iff, !N.leb_le, N.eqb_eq. tauto.
Qed.

Lemma clean_char_ascii (c : char) : clean_char c = true -> is_ascii c = true.
Proof.
  intros H. apply clean_char_cases in H. unfold is_ascii, space in *.
  apply N.ltb_lt. lia.
Qed.

Lemma clean_char_lower_fixed (c : char) :
  clean_char c = true -> ascii_lower c = c.
Proof.
  intros H. apply clean_char_cases in H. unfold ascii_lower, is_ascii_upper, space in *.
  destruct (65 <=? c)%N eqn:E1; destruct (c <=? 90)%N eqn:E2; simpl; try reflexivity.
  apply N.leb_le in E1, E2. lia.
Qed.

Lemma clean_char_not_digit (c : char) :
  clean_char c = true -> is_ascii_digit c = false.
Proof.
  intros H. apply clean_char_cases in H. unfold is_ascii_digit, space in *.
  apply andb_false_iff.
  destruct (N.leb_spec 48 c); [right; apply N.leb_gt; lia | left; reflexivity].
Qed.

Lemma clean_char_kept (c : char) :
  clean_char c = true -> not_letter_or_space c = false.
Proof.
  intros H. apply clean_char_cases in H. unfold not_letter_or_space.
  apply negb_false_iff. destruct H as [H | ->]; [|reflexivity].
  unfold is_ascii_lower.
  replace (97 <=? c)%N with true by (symmetry; apply N.leb_le; lia).
  replace (c <=? 122)%N with true by (symmetry; apply N.leb_le; lia).
  reflexivity.
Qed.

Lemma clean_char_space (c : char) :
  clean_char c = true -> isspace c = true -> c = space.
Proof.
  intros H Hs. apply clean_char_cases in H. destruct H as [H | ->]; [|reflexivity].
  exfalso. char_cases; lia.
Qed.


(** ** The substitutions *)

Lemma re_sub_plus_from_unmatched cls repl b s :
  (forall c, In c s -> cls c = false) -> re_sub_plus_from cls repl b s = s.
Proof.
  revert b; induction s as [|c s IH]; intros b H; simpl; [reflexivity|].
  rewrite (H c) by (left; reflexivity).
  f_equal. apply IH. intros d Hd. apply H. right; exact Hd.
Qed.

Lemma re_sub_class_unmatched cls repl s :
  (forall c, In c s -> cls c = false) -> re_sub_class cls repl s = s.
Proof.
  unfold re_sub_class. induction s as [|c s IH]; intros H; simpl; [reflexivity|].
  rewrite (H c) by (left; reflexivity). simpl.
  f_equal. apply IH. intros d Hd. apply H. right; exact Hd.
Qed.

Lemma re_sub_plus_from_delete_In cls b s c :
  In c (re_sub_plus_from cls [] b s) -> In c s /\ cls c = false.
Proof.
  revert b; induction s as [|d s IH]; intros b; simpl; [tauto|].
  destruct (cls d) eqn:E.
  - destruct b; simpl; intros H; apply IH in H; tauto.
  - simpl. intros [-> | H]; [tauto|]. apply IH in H. tauto.
Qed.

Lemma re_sub_class_delete_In cls s c :
  In c (re_sub_class cls [] s) -> In c s /\ cls c = false.
Proof.
  unfold re_sub_class. induction s as [|d s IH]; simpl; [tauto|].
  destruct (cls d) eqn:E; simpl.
  - intros H. apply IH in H. tauto.
  - intros [-> | H]; [tauto|]. apply IH in H. tauto.
Qed.

Lemma collapse_In b s c :
  In c (re_sub_plus_from isspace (lit " ") b s) ->
  c = space \/ (In c s /\ isspace c = false).
Proof.
  revert b; induction s as [|d s IH]; intros b; simpl; [tauto|].
  destruct (isspace d) eqn:E.
  - destruct b; simpl.
    + intros H. apply IH in H. tauto.
    + intros [<- | H]; [left; reflexivity|]. apply IH in H. tauto.
  - simpl. intros [-> | H]; [tauto|]. apply IH in H. tauto.
Qed.

Lemma collapse_head s :
  starts_with_space (re_sub_plus_from isspace (lit " ") true s) = false.
Proof.
  induction s as [|d s IH]; simpl; [reflexivity|].
  destruct (isspace d) eqn:E; simpl; [exact IH|].
  destruct (char_eqb d space) eqn:Ed; [|reflexivity].
  apply char_eqb_eq in Ed. subst d. discriminate E.
Qed.

Lemma adjacent_spaces_cons c s :
  adjacent_spaces (c :: s) = (char_eqb c space && starts_with_space s) || adjacent_spaces s.
Proof. destruct s; simpl; [rewrite andb_false_r|]; reflexivity. Qed.

Lemma collapse_no_adjacent b s :
  adjacent_spaces (re_sub_plus_from isspace (lit " ") b s) = false.
Proof.
  revert b; induction s as [|d s IH]; intros b; [reflexivity|].
  cbn [re_sub_plus_from]. destruct (isspace d) eqn:E.
  - destruct b; [apply IH|].
    change (lit " " ++ ?x) with (space :: x).
    rewrite adjacent_spaces_cons, collapse_head, IH, andb_false_r. reflexivity.
  - rewrite adjacent_spaces_cons, IH.
    destruct (char_eqb d space) eqn:Ed; [|reflexivity].
    apply char_eqb_eq in Ed. subst d. discriminate E.
Qed.

Lemma collapse_clean b s :
  Forall (fun c => clean_char c = true) s ->
  adjacent_spaces s = false ->
  (b = true -> starts_with_space s = false) ->
  re_sub_plus_from isspace (lit " ") b s = s.
Proof.
  revert b; induction s as [|d s IH]; intros b Hc Hadj Hb; [reflexivity|].
  inversion Hc as [|? ? Hd Hs]; subst.
  rewrite adjacent_spaces_cons in Hadj. apply orb_false_iff in Hadj as [Hhd Hadj].
  cbn [re_sub_plus_from]. destruct (isspace d) eqn:E.
  - pose proof (clean_char_space _ Hd E) as ->.
    destruct b; [specialize (Hb eq_refl); discriminate Hb|].
    change (lit " " ++ ?x) with (space :: x). f_equal.
    apply IH; [assumption | assumption | intros _; exact Hhd].
  - f_equal. apply IH; [assumption | assumption | intros Habs; discriminate Habs].
Qed.

Lemma adjacent_spaces_nth s :
  adjacent_spaces s = false ->
  forall i, nth_error s i = Some space -> nth_error s (S i) <> Some space.
Proof.
  induction s as [|c s IH]; intros Hadj i; [destruct i; discriminate|].
  rewrite adjacent_spaces_cons in Hadj. apply orb_false_iff in Hadj as [Hhd Hadj].
  destruct i as [|i]; simpl.
  - intros [= ->]. destruct s as [|d s]; [discriminate|].
    simpl in *. intros [= ->]. discriminate Hhd.
  - apply IH. exact Hadj.
Qed.

(** ** Normalisation *)

Section CleanText.
Context {U : Unicode}.

Lemma lower_In_not_upper s c : In c (lower s) -> is_ascii_upper c = false.
Proof.
  intros H. pose proof (lower_no_upper s) as Hall.
  rewrite forallb_forall in Hall. apply Hall in H.
  apply negb_true_iff in H. exact H.
Qed.

Lemma clean_text_chars s : Forall (fun c => clean_char c = true) (clean_text s).
Proof.
  apply Forall_forall. intros c H. unfold clean_text, re_sub_plus in H.
  apply collapse_In in H. destruct H as [-> | [H Hns]]; [reflexivity|].
  apply re_sub_class_delete_In in H. destruct H as [H Hkeep].
  apply re_sub_plus_from_delete_In in H. destruct H as [H _].
  apply lower_In_not_upper in H.
  unfold not_letter_or_space in Hkeep. apply negb_false_iff in Hkeep.
  rewrite H, Hns, orb_false_r, orb_false_r in Hkeep.
  unfold clean_char. rewrite Hkeep. reflexivity.
Qed.

Lemma clean_text_no_adjacent s : adjacent_spaces (clean_text s) = false.
Proof. apply collapse_no_adjacent. Qed.

Lemma clean_text_fixed s :
  Forall (fun c => clean_char c = true) s ->
  adjacent_spaces s = false ->
  clean_text s = s.
Proof.
  intros Hc Hadj. rewrite Forall_forall in Hc. unfold clean_text, re_sub_plus.
  rewrite lower_ascii.
  2:{ apply forallb_forall. intros c Hin. apply clean_char_ascii, Hc, Hin. }
  replace (map ascii_lower s) with s.
  2:{ rewrite <- (map_id s) at 1. apply map_ext_in. intros c Hin.
      symmetry. apply clean_char_lower_fixed, Hc, Hin. }
  rewrite (re_sub_plus_from_unmatched isdecimal).
  2:{ intros c Hin. rewrite isdecimal_ascii by (apply clean_char_ascii, Hc, Hin).
      apply clean_char_not_digit, Hc, Hin. }
  rewrite re_sub_class_unmatched.
  2:{ intros c Hin. apply clean_char_kept, Hc, Hin. }
  apply collapse_clean; [apply Forall_forall; exact Hc | exact Hadj | discriminate].
Qed.

(** C1: normalisation is idempotent: cleaning a cleaned text changes
    nothing, for every string. *)
Theorem clean_text_idempotent (s : str) :
  clean_text (clean_text s) = clean_text s.
Proof.
  apply clean_text_fixed; [apply clean_text_chars | apply clean_text_no_adjacent].
Qed.

(** C2: every character of a cleaned text is a lowercase letter a-z or the
    space character, no two neighbouring characters are both spaces, and
    nothing that [\d] matches or that [[^a-zA-Z\s]] matches is left. *)
Theorem clean_text_alphabet (s : str) :
  (forall c, In c (clean_text s) -> (97 <= c <= 122)%N \/ c = space)
  /\ (forall i, nth_error (clean_text s) i = Some space ->
                nth_error (clean_text s) (S i) <> Some space)
  /\ (forall c, In c (clean_text s) ->
                isdecimal c = false /\ not_letter_or_space c = false).
Proof.
  pose proof (clean_text_chars s) as Hc. rewrite Forall_forall in Hc.
  split; [|split].
  - intros c H. apply clean_char_cases, Hc, H.
  - apply adjacent_spaces_nth, clean_text_no_adjacent.
  - intros c H. apply Hc in H. split.
    + rewrite isdecimal_ascii by (apply clean_char_ascii, H).
      apply clean_char_not_digit, H.
    + apply clean_char_kept, H.
Qed.

End CleanText.

(** ** The Basic Latin tables satisfy the laws *)

Lemma BasicLatin_lower_ascii s :
  forallb is_ascii s = true -> BasicLatin.lower s = map ascii_lower s.
Proof.
  unfold BasicLatin.lower. induction s as [|c s IH]; simpl; [reflexivity|].
  intros H. apply andb_true_iff in H as [Hc Hs]. rewrite (IH Hs).
  unfold BasicLatin.lower_char, is_ascii in *. apply N.ltb_lt in Hc.
  replace (c =? 304)%N with false by (symmetry; apply N.eqb_neq; lia).
  replace (c =? 8490)%N with false by (symmetry; apply N.eqb_neq; lia).
  reflexivity.
Qed.

Lemma ascii_lower_not_upper c : is_ascii_upper (ascii_lower c) = false.
Proof.
  unfold ascii_lower. destruct (is_ascii_upper c) eqn:E; [|exact E].
  unfold is_ascii_upper in *. apply andb_true_iff in E as [E1 E2].
  apply N.leb_le in E1, E2. apply andb_false_iff. right. apply N.leb_gt. lia.
Qed.

Lemma BasicLatin_lower_no_upper s :
  forallb (fun c => negb (is_ascii_upper c)) (BasicLatin.lower s) = true.
Proof.
  unfold BasicLatin.lower. induction s as [|c s IH]; simpl; [reflexivity|].
  rewrite forallb_app, IH, andb_true_r. unfold BasicLatin.lower_char.
  destruct (c =? 304)%N; [reflexivity|].
  destruct (c =? 8490)%N; [reflexivity|].
  simpl. rewrite ascii_lower_not_upper. reflexivity.
Qed.

Lemma BasicLatin_isdecimal_ascii c :
  is_ascii c = true -> BasicLatin.isdecimal c = is_ascii_digit c.
Proof.
  unfold BasicLatin.isdecimal, is_ascii. intros H. apply N.ltb_lt in H.
  replace (1632 <=? c)%N with false by (symmetry; apply N.leb_gt; lia).
  rewrite orb_false_r. reflexivity.
Qed.

Definition BasicLatin_tables : Unicode :=
  {| lower := BasicLatin.lower;
     isdecimal := BasicLatin.isdecimal;
     lower_ascii := BasicLatin_lower_ascii;
     lower_no_upper := BasicLatin_lower_no_upper;
     isdecimal_ascii := BasicLatin_isdecimal_ascii |}.

Lemma clean_text_idempotent_witness :
  @clean_text BasicLatin_tables (@clean_text BasicLatin_tables sample_text)
  = @clean_text BasicLatin_tables sample_text.
Proof. exact (@clean_text_idempotent BasicLatin_tables sample_text). Defined.

Lemma clean_text_alphabet_witness :
  @clean_text BasicLatin_tables sample_text = lit " senior dev k yrs acme "
  /\ (forall c, In c (@clean_text BasicLatin_tables sample_text) ->
                (97 <= c <= 122)%N \/ c = space).
Proof.
  split; [reflexivity|].
  exact (proj1 (@clean_text_alphabet BasicLatin_tables sample_text)).
Defined.

(** ** Job customisation *)

Lemma lstrip_blank s : forallb isspace s = true -> lstrip s = [].
Proof.
  induction s as [|c s IH]; simpl; [reflexivity|].
  intros H. apply andb_true_iff in H as [Hc Hs]. rewrite Hc. exact (IH Hs).
Qed.

Lemma strip_blank s : forallb isspace s = true -> strip s = [].
Proof. intros H. unfold strip. rewrite (lstrip_blank _ H). reflexivity. Qed.

Lemma lstrip_nil_blank s : lstrip s = [] -> forallb isspace s = true.
Proof.
  induction s as [|c s IH]; simpl; [reflexivity|].
  destruct (isspace c); [exact IH | discriminate].
Qed.

Lemma strip_nil_blank s : strip s = [] -> forallb isspace s = true.
Proof.
  unfold strip, rstrip. intros H. apply lstrip_nil_blank.
  destruct (lstrip s) as [|c t] eqn:E; [reflexivity|].
  assert (Hrev : lstrip (rev (c :: t)) = []).
  { apply (f_equal (@rev char)) in H. rewrite rev_involutive in H. exact H. }
  apply lstrip_nil_blank in Hrev.
  rewrite forallb_forall in Hrev.
  assert (Hc : isspace c = true) by (apply Hrev, in_rev; rewrite rev_involutive; left; reflexivity).
  destruct s as [|d s]; [discriminate E|]. simpl in E.
  destruct (isspace d) eqn:Ed.
  - clear -E Hc. exfalso. induction s as [|e s IH]; simpl in E; [discriminate|].
    destruct (isspace e) eqn:Ee; [exact (IH E)|]. injection E as -> _. congruence.
  - injection E as -> _. congruence.
Qed.

(** C3: with a job description that is empty or all whitespace, the
    customised resume is exactly the plain resume of the label, whatever
    the candidate text. *)
Theorem customize_for_job_blank (role resume_input job_desc : str) :
  forallb isspace job_desc = true ->
  customize_for_job role resume_input job_desc = generate_resume role.
Proof.
  intros H. unfold customize_for_job. rewrite (strip_blank _ H). reflexivity.
Qed.

Lemma customize_for_job_blank_witness :
  customize_for_job (lit "Data Science") sample_text (lit "  ")
  = generate_resume (lit "Data Science")
  /\ customize_for_job (lit "Data Science") sample_text (lit "")
     = generate_resume (lit "Data Science").
Proof.
  split.
  - apply (customize_for_job_blank (lit "Data Science") sample_text (lit "  ")).
    reflexivity.
  - apply (customize_for_job_blank (lit "Data Science") sample_text (lit "")).
    reflexivity.
Defined.

(** ** Lines *)

Lemma split_nonempty sep s : split sep s <> [].
Proof.
  destruct s as [|c s]; simpl; [discriminate|].
  destruct (char_eqb c sep); [discriminate|].
  destruct (split sep s); discriminate.
Qed.

Lemma split_length sep s :
  length (split sep s) = S (count_occ N.eq_dec s sep).
Proof.
  induction s as [|c s IH]; simpl; [reflexivity|].
  destruct (char_eqb c sep) eqn:E.
  - apply char_eqb_eq in E. subst c.
    destruct (N.eq_dec sep sep) as [_|n]; [|contradiction].
    simpl. rewrite IH. reflexivity.
  - destruct (N.eq_dec c sep) as [e|_].
    + apply char_eqb_eq in e. congruence.
    + destruct (split sep s) as [|p ps] eqn:Es;
        [exfalso; exact (split_nonempty _ _ Es) | exact IH].
Qed.

Lemma join_split sep s : join sep (split sep s) = s.
Proof.
  induction s as [|c s IH]; [reflexivity|].
  cbn [split]. destruct (char_eqb c sep) eqn:E.
  - apply char_eqb_eq in E. subst c.
    destruct (split sep s) as [|p ps] eqn:Es;
      [exfalso; exact (split_nonempty _ _ Es)|].
    cbn [join app]. cbn [join] in IH. rewrite IH. reflexivity.
  - destruct (split sep s) as [|p ps] eqn:Es;
      [exfalso; exact (split_nonempty _ _ Es)|].
    destruct ps as [|q ps]; cbn [join app] in *; rewrite IH; reflexivity.
Qed.

Lemma split_pieces sep s :
  Forall (fun p => ~ In sep p) (split sep s).
Proof.
  induction s as [|c s IH]; simpl.
  - constructor; [intros [] | constructor].
  - destruct (char_eqb c sep) eqn:E.
    + constructor; [intros [] | exact IH].
    + destruct (split sep s) as [|p ps]; [repeat constructor|].
      * intros [-> | []]. rewrite (proj2 (char_eqb_eq sep sep) eq_refl) in E. discriminate.
      * inversion IH as [|? ? Hp Hps]; subst. constructor; [|exact Hps].
        intros [-> | H]; [|exact (Hp H)].
        rewrite (proj2 (char_eqb_eq sep sep) eq_refl) in E. discriminate.
Qed.

(** ** The Word export *)

Lemma run_text_app r1 r2 : run_text (r1 ++ r2) = run_text r1 ++ run_text r2.
Proof. apply flat_map_app. Qed.

Lemma incompatible_not_control c :
  xml_compatible c = false ->
  (c =? 9)%N = false /\ ((c =? 13)%N || (c =? 10)%N) = false.
Proof.
  intros H. split.
  - destruct (c =? 9)%N eqn:E; [|reflexivity].
    apply N.eqb_eq in E. subst c. discriminate H.
  - destruct (c =? 13)%N eqn:E13.
    + apply N.eqb_eq in E13. subst c. discriminate H.
    + destruct (c =? 10)%N eqn:E10; [|reflexivity].
      apply N.eqb_eq in E10. subst c. discriminate H.
Qed.

Lemma flush_ok r bfr :
  forallb xml_compatible bfr = true ->
  exists r', flush r bfr = Done r' /\ run_text r' = run_text r ++ bfr.
Proof.
  intros H. destruct bfr as [|c bfr].
  - exists r. split; [reflexivity | rewrite app_nil_r; reflexivity].
  - exists (r ++ [RunText (c :: bfr)]). unfold flush. rewrite H.
    split; [reflexivity|]. rewrite run_text_app. unfold run_text at 2.
    simpl. rewrite app_nil_r. reflexivity.
Qed.

Lemma read_back_cons c line :
  read_back (c :: line)
  = (if char_eqb c carriage_return then newline else c) :: read_back line.
Proof. reflexivity. Qed.

Lemma add_text_ok text : forall r bfr,
  forallb xml_compatible bfr = true ->
  forallb xml_compatible text = true ->
  exists r', add_text r bfr text = Done r'
             /\ run_text r' = run_text r ++ bfr ++ read_back text.
Proof.
  induction text as [|c text IH]; intros r bfr Hb Ht.
  - destruct (flush_ok r bfr Hb) as (r' & E & Htxt). exists r'.
    split; [exact E|]. simpl. rewrite app_nil_r. exact Htxt.
  - simpl in Ht. apply andb_true_iff in Ht as [Hc Ht].
    cbn [add_text]. rewrite read_back_cons.
    destruct (c =? 9)%N eqn:E9.
    + apply N.eqb_eq in E9. subst c.
      destruct (flush_ok r bfr Hb) as (r' & E & Htxt). rewrite E.
      destruct (IH (r' ++ [RunTab]) [] eq_refl Ht) as (r'' & E2 & H2).
      exists r''. split; [exact E2|].
      rewrite H2, run_text_app, Htxt. simpl. rewrite <- !app_assoc. reflexivity.
    + destruct ((c =? 13)%N || (c =? 10)%N) eqn:Ecr.
      * destruct (flush_ok r bfr Hb) as (r' & E & Htxt). rewrite E.
        destruct (IH (r' ++ [RunBreak]) [] eq_refl Ht) as (r'' & E2 & H2).
        exists r''. split; [exact E2|].
        rewrite H2, run_text_app, Htxt. simpl. rewrite <- !app_assoc. simpl.
        apply orb_true_iff in Ecr as [Ec | Ec]; apply N.eqb_eq in Ec; subst c;
          reflexivity.
      * apply orb_false_iff in Ecr as [E13 _].
        assert (Hb' : forallb xml_compatible (bfr ++ [c]) = true).
        { rewrite forallb_app, Hb. simpl. rewrite Hc. reflexivity. }
        destruct (IH r (bfr ++ [c]) Hb' Ht) as (r' & E & Htxt).
        exists r'. split; [exact E|]. rewrite Htxt.
        unfold char_eqb, carriage_return. rewrite E13.
        rewrite <- !app_assoc. reflexivity.
Qed.

Lemma add_text_bad_buffer text : forall r bfr,
  forallb xml_compatible bfr = false ->
  add_text r bfr text = Raised run_content (lit "ValueError").
Proof.
  assert (Hflush : forall r bfr, forallb xml_compatible bfr = false ->
                     flush r bfr = Raised run_content (lit "ValueError")).
  { intros r [|c bfr] H; [discriminate H|]. unfold flush. rewrite H. reflexivity. }
  induction text as [|c text IH]; intros r bfr Hb; cbn [add_text].
  - apply Hflush, Hb.
  - rewrite (Hflush r bfr Hb).
    destruct (c =? 9)%N; [reflexivity|].
    destruct ((c =? 13)%N || (c =? 10)%N); [reflexivity|].
    apply IH. rewrite forallb_app, Hb. reflexivity.
Qed.

Lemma add_text_bad text : forall r bfr,
  forallb xml_compatible bfr = true ->
  forallb xml_compatible text = false ->
  add_text r bfr text = Raised run_content (lit "ValueError").
Proof.
  induction text as [|c text IH]; intros r bfr Hb Ht; [discriminate Ht|].
  simpl in Ht. cbn [add_text].
  destruct (xml_compatible c) eqn:Hc.
  - simpl in Ht.
    destruct (c =? 9)%N.
    + destruct (flush_ok r bfr Hb) as (r' & E & _). rewrite E.
      apply IH; [reflexivity | exact Ht].
    + destruct ((c =? 13)%N || (c =? 10)%N).
      * destruct (flush_ok r bfr Hb) as (r' & E & _). rewrite E.
        apply IH; [reflexivity | exact Ht].
      * apply IH; [|exact Ht]. rewrite forallb_app, Hb. simpl. rewrite Hc. reflexivity.
  - destruct (incompatible_not_control c Hc) as [E9 Ecr]. rewrite E9, Ecr.
    apply add_text_bad_buffer. rewrite forallb_app. simpl. rewrite Hc.
    rewrite andb_false_r. reflexivity.
Qed.

Lemma add_paragraph_ok doc line :
  forallb xml_compatible line = true ->
  exists p, add_paragraph doc line = Done {| paragraphs := paragraphs doc ++ [p] |}
            /\ holds_line line p.
Proof.
  intros H. destruct line as [|c line].
  - eexists. split; [reflexivity|]. repeat split.
  - destruct (add_text_ok (c :: line) [] [] eq_refl H) as (r & E & Htxt).
    unfold add_paragraph. rewrite E. eexists. split; [reflexivity|].
    split; [reflexivity|]. split; [|discriminate].
    unfold p_text. simpl. rewrite app_nil_r. exact Htxt.
Qed.

Lemma add_paragraph_bad doc line :
  forallb xml_compatible line = false ->
  add_paragraph doc line = Raised document (lit "ValueError").
Proof.
  intros H. destruct line as [|c line]; [discriminate H|].
  unfold add_paragraph. rewrite (add_text_bad (c :: line) [] [] eq_refl H).
  reflexivity.
Qed.

Lemma add_paragraphs_ok lines : forall doc,
  Forall (fun line => forallb xml_compatible line = true) lines ->
  exists ps, add_paragraphs doc lines = Done {| paragraphs := paragraphs doc ++ ps |}
             /\ Forall2 holds_line lines ps.
Proof.
  induction lines as [|line rest IH]; intros doc H.
  - exists []. split; [|constructor]. simpl. rewrite app_nil_r.
    destruct doc; reflexivity.
  - inversion H as [|? ? Hline Hrest]; subst.
    destruct (add_paragraph_ok doc line Hline) as (p & E & Hp).
    cbn [add_paragraphs]. rewrite E.
    destruct (IH {| paragraphs := paragraphs doc ++ [p] |} Hrest) as (ps & E' & Hps).
    rewrite E'.
    exists (p :: ps). split; [|constructor; assumption].
    simpl. rewrite <- app_assoc. reflexivity.
Qed.

Lemma add_paragraphs_bad lines : forall doc,
  Exists (fun line => forallb xml_compatible line = false) lines ->
  add_paragraphs doc lines = Raised document (lit "ValueError").
Proof.
  induction lines as [|line rest IH]; intros doc H; [inversion H|].
  cbn [add_paragraphs]. destruct (forallb xml_compatible line) eqn:Hline.
  - destruct (add_paragraph_ok doc line Hline) as (p & E & _). rewrite E.
    apply IH. inversion H as [? ? Hbad | ? ? Hbad]; subst; [congruence | exact Hbad].
  - rewrite (add_paragraph_bad doc line Hline). reflexivity.
Qed.

Lemma split_In sep s : forall piece c,
  In piece (split sep s) -> In c piece -> In c s.
Proof.
  induction s as [|d s IH]; intros piece c; simpl.
  - intros [<- | []] [].
  - destruct (char_eqb d sep).
    + intros [<- | H] Hc; [destruct Hc | right; exact (IH _ _ H Hc)].
    + destruct (split sep s) as [|p ps] eqn:E.
      * intros [<- | []] [-> | []]. left; reflexivity.
      * intros [<- | H] Hc.
        -- destruct Hc as [-> | Hc]; [left; reflexivity|].
           right. apply (IH p c); [left; reflexivity | exact Hc].
        -- right. apply (IH piece c); [right; exact H | exact Hc].
Qed.

Lemma In_split sep s c :
  In c s -> c <> sep -> exists piece, In piece (split sep s) /\ In c piece.
Proof.
  induction s as [|d s IH]; intros Hc Hsep; [destruct Hc|]. simpl.
  destruct (char_eqb d sep) eqn:Ed.
  - destruct Hc as [-> | Hc].
    + apply char_eqb_eq in Ed. contradiction.
    + destruct (IH Hc Hsep) as (piece & Hp & Hin).
      exists piece. split; [right; exact Hp | exact Hin].
  - destruct (split sep s) as [|p ps] eqn:E;
      [exfalso; exact (split_nonempty _ _ E)|].
    destruct Hc as [-> | Hc].
    + exists (c :: p). split; left; reflexivity.
    + destruct (IH Hc Hsep) as (piece & [<- | Hp] & Hin).
      * exists (d :: p). split; [left; reflexivity | right; exact Hin].
      * exists piece. split; [right; exact Hp | exact Hin].
Qed.

Lemma lines_compatible text :
  forallb xml_compatible text = true ->
  Forall (fun line => forallb xml_compatible line = true) (split newline text).
Proof.
  intros H. rewrite forallb_forall in H. apply Forall_forall. intros line Hl.
  apply forallb_forall. intros c Hc. exact (H c (@split_In _ _ _ _ Hl Hc)).
Qed.

Lemma lines_incompatible text :
  forallb xml_compatible text = false ->
  Exists (fun line => forallb xml_compatible line = false) (split newline text).
Proof.
  intros H.
  assert (Hex : exists c, In c text /\ xml_compatible c = false).
  { clear -H. induction text as [|c text IH]; [discriminate H|]. simpl in H.
    destruct (xml_compatible c) eqn:Hc.
    - destruct (IH H) as (d & Hd & Hbad). exists d. split; [right; exact Hd | exact Hbad].
    - exists c. split; [left; reflexivity | exact Hc]. }
  destruct Hex as (c & Hc & Hbad).
  assert (Hnl : c <> newline) by (intros ->; discriminate Hbad).
  destruct (@In_split newline text c Hc Hnl) as (piece & Hp & Hin).
  apply Exists_exists. exists piece. split; [exact Hp|].
  destruct (forallb xml_compatible piece) eqn:E; [|reflexivity].
  rewrite forallb_forall in E. rewrite (E c Hin) in Hbad. discriminate Hbad.
Qed.

Lemma word_document_ok text :
  forallb xml_compatible text = true ->
  exists doc, word_document text = Done doc
              /\ Forall2 holds_line (split newline text) (paragraphs doc).
Proof.
  intros H. unfold word_document.
  destruct (@add_paragraphs_ok (split newline text) Document (lines_compatible text H))
    as (ps & E & Hps).
  eexists. split; [exact E | exact Hps].
Qed.

Lemma word_document_bad text :
  forallb xml_compatible text = false ->
  word_document text = Raised document (lit "ValueError").
Proof.
  intros H. apply add_paragraphs_bad, lines_incompatible, H.
Qed.

Lemma read_back_plain line : ~ In carriage_return line -> read_back line = line.
Proof.
  intros H. unfold read_back. rewrite <- (map_id line) at 2.
  apply map_ext_in. intros c Hc.
  destruct (char_eqb c carriage_return) eqn:E; [|reflexivity].
  apply char_eqb_eq in E. subst c. contradiction.
Qed.

Lemma holds_lines_texts lines ps :
  Forall2 holds_line lines ps -> map p_text ps = map read_back lines.
Proof.
  induction 1 as [|line p lines ps Hp _ IH]; [reflexivity|].
  simpl. rewrite IH. destruct Hp as (_ & -> & _). reflexivity.
Qed.

Lemma holds_lines_nth lines ps :
  Forall2 holds_line lines ps ->
  forall i line, nth_error lines i = Some line ->
  exists p, nth_error ps i = Some p /\ holds_line line p.
Proof.
  induction 1 as [|l p lines ps Hp _ IH]; intros i line Hi;
    [destruct i; discriminate|].
  destruct i as [|i]; simpl in *.
  - injection Hi as <-. exists p. split; [reflexivity | exact Hp].
  - exact (IH i line Hi).
Qed.

Section WordExport.
Context {Ser : Serializers}.

Lemma generate_word_file_ok text :
  forallb xml_compatible text = true ->
  exists doc, word_document text = Done doc
              /\ generate_word_file text
                 = Done {| getvalue := docx_save doc; tell := 0 |}
              /\ Forall2 holds_line (split newline text) (paragraphs doc).
Proof.
  intros H. destruct (word_document_ok text H) as (doc & E & Hps).
  exists doc. split; [exact E|]. split; [|exact Hps].
  unfold generate_word_file. rewrite E.
  unfold seek, BytesIO_write, BytesIO_new. simpl.
  rewrite skipn_nil, app_nil_r. reflexivity.
Qed.

Lemma generate_word_file_bad text :
  forallb xml_compatible text = false ->
  generate_word_file text = Raised BytesIO (lit "ValueError").
Proof.
  intros H. unfold generate_word_file. rewrite (word_document_bad text H).
  reflexivity.
Qed.

(** C4, as the code has it: on a text XML can hold, the Word export saves a
    document with one paragraph a line (the pieces between newline
    characters), in the order of the text, of the default style, an empty
    line giving an empty paragraph; a paragraph reads as its line with
    every carriage return turned into a line feed, so as the line itself
    when the line has no carriage return.  On a text with a character XML
    cannot hold it raises [ValueError] and gives no document. *)
Theorem generate_word_file_paragraphs (text : str) :
  let lines := split newline text in
  (forallb xml_compatible text = true ->
   exists doc,
     word_document text = Done doc
     /\ generate_word_file text = Done {| getvalue := docx_save doc; tell := 0 |}
     /\ length (paragraphs doc) = length lines
     /\ map p_text (paragraphs doc) = map read_back lines
     /\ (forall i line, nth_error lines i = Some line ->
           exists p,
             nth_error (paragraphs doc) i = Some p
             /\ p_style p = None
             /\ p_text p = read_back line
             /\ (~ In carriage_return line -> p_text p = line)
             /\ (line = [] -> p_runs p = [])))
  /\ (forallb xml_compatible text = false ->
      generate_word_file text = Raised BytesIO (lit "ValueError")).
Proof.
  intros lines. split; [|apply generate_word_file_bad].
  intros H. destruct (generate_word_file_ok text H) as (doc & E & Hfile & Hps).
  fold lines in Hps. exists doc.
  split; [exact E|]. split; [exact Hfile|].
  split; [symmetry; exact (Forall2_length Hps)|].
  split; [exact (holds_lines_texts Hps)|].
  intros i line Hi.
  destruct (@holds_lines_nth _ _ Hps i line Hi) as (p & Hp & Hstyle & Htext & Hempty).
  exists p. split; [exact Hp|]. split; [exact Hstyle|]. split; [exact Htext|].
  split; [|exact Hempty].
  intros Hcr. rewrite Htext. apply read_back_plain, Hcr.
Qed.

(** C10, as the code has it: on a text XML can hold, the Word export makes
    one paragraph more than the text has newline characters, so at least
    one, and the empty text gives one empty paragraph; on a text with a
    character XML cannot hold it raises [ValueError] and makes no
    document. *)
Theorem generate_word_file_paragraph_count (text : str) :
  (forallb xml_compatible text = true ->
   exists doc,
     generate_word_file text = Done {| getvalue := docx_save doc; tell := 0 |}
     /\ length (paragraphs doc) = count_occ N.eq_dec text newline + 1
     /\ 1 <= length (paragraphs doc))
  /\ (forallb xml_compatible text = false ->
      generate_word_file text = Raised BytesIO (lit "ValueError"))
  /\ generate_word_file (lit "")
     = Done {| getvalue := docx_save
                             {| paragraphs := [{| p_runs := []; p_style := None |}] |};
               tell := 0 |}.
Proof.
  split; [|split; [apply generate_word_file_bad|]].
  - intros H. destruct (generate_word_file_ok text H) as (doc & _ & Hfile & Hps).
    exists doc. split; [exact Hfile|].
    rewrite <- (Forall2_length Hps), split_length. lia.
  - unfold generate_word_file, seek, BytesIO_write, BytesIO_new. simpl.
    rewrite skipn_nil, app_nil_r. reflexivity.
Qed.

End WordExport.

(** ** The PDF export *)

Lemma Qlt_bool_iff x y : Qlt_bool x y = true <-> (x < y)%Q.
Proof.
  unfold Qlt_bool. rewrite negb_true_iff. split.
  - intros H. apply Qnot_le_lt. intros Hle.
    apply Qle_bool_iff in Hle. congruence.
  - intros H. destruct (Qle_bool y x) eqn:E; [|reflexivity].
    apply Qle_bool_iff in E. exfalso. exact (Qlt_not_le _ _ H E).
Qed.

Lemma Qlt_bool_false x y : Qlt_bool x y = false -> (y <= x)%Q.
Proof.
  unfold Qlt_bool. rewrite negb_false_iff. apply Qle_bool_iff.
Qed.

Lemma pdf_draw_lines_code height lines : forall pdf y,
  code (fst (pdf_draw_lines height pdf y lines))
  = code pdf ++ drawn height y lines.
Proof.
  unfold drawn. induction lines as [|line rest IH]; intros pdf y; simpl.
  - rewrite app_nil_r. reflexivity.
  - destruct (Qlt_bool (y - 14) 40).
    + rewrite IH. rewrite (IH (showPage _)). simpl.
      rewrite <- !app_assoc. reflexivity.
    + rewrite IH. rewrite (IH (drawString _ _ _ _)). simpl.
      rewrite <- !app_assoc. reflexivity.
Qed.

Lemma drawn_cons height y line rest :
  drawn height y (line :: rest)
  = DrawString 40 y line ::
    (if Qlt_bool (y - 14) 40
     then ShowPage :: drawn height (height - 40)%Q rest
     else drawn height (y - 14)%Q rest).
Proof.
  unfold drawn at 1. simpl.
  destruct (Qlt_bool (y - 14) 40); rewrite pdf_draw_lines_code; reflexivity.
Qed.

Lemma drawn_nil height y : drawn height y [] = [].
Proof. reflexivity. Qed.

Lemma pdf_canvas_code pagesize text :
  code (pdf_canvas pagesize text)
  = drawn (snd pagesize) (snd pagesize - 40)%Q (split newline text).
Proof. unfold pdf_canvas. rewrite pdf_draw_lines_code. reflexivity. Qed.

Lemma div_full_page cap n : 0 < cap -> (cap + n) / cap = S (n / cap).
Proof.
  intros H. replace (cap + n) with (n + 1 * cap) by lia.
  rewrite Nat.div_add by lia. lia.
Qed.

Lemma mod_full_page cap n : (cap + n) mod cap = n mod cap.
Proof.
  replace (cap + n) with (n + 1 * cap) by lia. apply Nat.Div0.mod_add.
Qed.

Section Pagination.
Variable height : Q.
Hypothesis tall : (80 <= height)%Q.

Let cap := lines_per_page height.

Lemma floor_bounds :
  let f := Qfloor ((height - 80) / 14) in
  (0 <= f)%Z /\ Z.of_nat cap = (f + 1)%Z
  /\ (14 * inject_Z f <= height - 80)%Q
  /\ (height - 80 < 14 * inject_Z f + 14)%Q.
Proof.
  intros f.
  assert (Hx : ((height - 80) / 14 * 14 == height - 80)%Q) by (field; discriminate).
  pose proof (Qfloor_le ((height - 80) / 14)) as Hlo.
  pose proof (Qlt_floor ((height - 80) / 14)) as Hhi.
  fold f in Hlo, Hhi. rewrite inject_Z_plus in Hhi.
  change (inject_Z 1) with 1%Q in Hhi.
  assert (H0 : (0 <= f)%Z).
  { rewrite <- (Qfloor_Z 0). apply Qfloor_resp_le.
    change (inject_Z 0) with 0%Q. set (x := ((height - 80) / 14)%Q) in *. lra. }
  split; [exact H0|]. split.
  - unfold cap, lines_per_page. fold f. rewrite Nat2Z.inj_succ, Z2Nat.id by exact H0. lia.
  - set (x := ((height - 80) / 14)%Q) in *. split; lra.
Qed.

Lemma inject_succ j : (inject_Z (Z.of_nat (S j)) == inject_Z (Z.of_nat j) + 1)%Q.
Proof. rewrite Nat2Z.inj_succ. unfold Z.succ. rewrite inject_Z_plus. reflexivity. Qed.

Lemma cursor_top : cursor_at height (height - 40)%Q 0.
Proof.
  split; [unfold cap, lines_per_page; lia|].
  change (inject_Z (Z.of_nat 0)) with 0%Q. ring.
Qed.

Lemma cursor_break y j :
  cursor_at height y j -> Qlt_bool (y - 14) 40 = true -> S j = cap.
Proof.
  intros [Hj Hy] Hb. apply Qlt_bool_iff in Hb.
  destruct floor_bounds as (H0 & Hcap & Hlo & Hhi).
  set (f := Qfloor ((height - 80) / 14)) in *.
  assert (Hlt : (inject_Z f < inject_Z (Z.of_nat j) + 1)%Q) by lra.
  rewrite <- inject_succ in Hlt. rewrite <- Zlt_Qlt in Hlt. lia.
Qed.

Lemma cursor_step y j :
  cursor_at height y j -> Qlt_bool (y - 14) 40 = false -> cursor_at height (y - 14)%Q (S j).
Proof.
  intros [Hj Hy] Hb. apply Qlt_bool_false in Hb.
  destruct floor_bounds as (H0 & Hcap & Hlo & Hhi).
  set (f := Qfloor ((height - 80) / 14)) in *.
  split.
  - assert (Hlt : (inject_Z (Z.of_nat j) + 1 < inject_Z f + 1)%Q) by lra.
    rewrite <- inject_succ in Hlt.
    change 1%Q with (inject_Z 1) in Hlt. rewrite <- inject_Z_plus in Hlt.
    rewrite <- Zlt_Qlt in Hlt. lia.
  - rewrite inject_succ, Hy. ring.
Qed.

Lemma drawn_page_breaks lines : forall y j,
  cursor_at height y j ->
  page_breaks (drawn height y lines) = (j + length lines) / cap.
Proof.
  induction lines as [|line rest IH]; intros y j Hc.
  - rewrite drawn_nil. cbn [page_breaks length].
    rewrite Nat.add_0_r. symmetry. apply Nat.div_small. apply Hc.
  - rewrite drawn_cons. cbn [page_breaks length].
    destruct (Qlt_bool (y - 14) 40) eqn:Hb.
    + pose proof (cursor_break Hc Hb) as Hfull.
      cbn [page_breaks]. rewrite (IH _ 0 cursor_top).
      replace (j + S (length rest)) with (cap + length rest) by lia.
      rewrite div_full_page by lia. reflexivity.
    + rewrite (IH _ (S j) (cursor_step Hc Hb)). f_equal. lia.
Qed.

Lemma drawn_first_break lines : forall y j,
  cursor_at height y j ->
  first_break_after (drawn height y lines)
  = if cap <=? j + length lines then Some (cap - j) else None.
Proof.
  induction lines as [|line rest IH]; intros y j Hc.
  - rewrite drawn_nil. cbn [first_break_after length].
    destruct (Nat.leb_spec cap (j + 0)); [|reflexivity].
    destruct Hc as [Hj _]. lia.
  - rewrite drawn_cons. cbn [first_break_after length].
    destruct (Qlt_bool (y - 14) 40) eqn:Hb.
    + pose proof (cursor_break Hc Hb) as Hfull. cbn [first_break_after option_map].
      destruct (Nat.leb_spec cap (j + S (length rest))); [|lia].
      f_equal. lia.
    + pose proof (cursor_step Hc Hb) as Hc'. rewrite (IH _ _ Hc').
      destruct Hc' as [Hj' _].
      replace (j + S (length rest)) with (S j + length rest) by lia.
      destruct (cap <=? S j + length rest); [|reflexivity].
      cbn [option_map]. f_equal. lia.
Qed.

Lemma drawn_placements lines : forall y j p,
  cursor_at height y j ->
  forall i line, nth_error lines i = Some line ->
  exists y',
    nth_error (placements p (drawn height y lines)) i
    = Some (p + (j + i) / cap, 40%Q, y', line)
    /\ (y' == height - 40 - 14 * inject_Z (Z.of_nat ((j + i) mod cap)))%Q.
Proof.
  induction lines as [|l rest IH]; intros y j p Hc i line Hi;
    [destruct i; discriminate|].
  rewrite drawn_cons. cbn [placements].
  destruct i as [|i].
  - injection Hi as ->. exists y. destruct Hc as [Hj Hy]. fold cap in Hj.
    rewrite Nat.add_0_r, (Nat.div_small _ _ Hj), (Nat.mod_small _ _ Hj), Nat.add_0_r.
    split; [|exact Hy].
    destruct (Qlt_bool (y - 14) 40); reflexivity.
  - simpl in Hi. destruct (Qlt_bool (y - 14) 40) eqn:Hb.
    + pose proof (cursor_break Hc Hb) as Hfull.
      destruct (IH _ 0 (S p) cursor_top i line Hi) as (y' & Hn & Hy').
      change (0 + i) with i in Hn, Hy'.
      exists y'. cbn [placements nth_error]. rewrite Hn.
      replace (j + S i) with (cap + i) by lia.
      rewrite div_full_page by lia. rewrite mod_full_page.
      split; [|exact Hy'].
      rewrite Nat.add_succ_r. reflexivity.
    + destruct (IH _ (S j) p (cursor_step Hc Hb) i line Hi) as (y' & Hn & Hy').
      exists y'. cbn [nth_error]. rewrite Hn.
      replace (j + S i) with (S j + i) by lia. split; [reflexivity | exact Hy'].
Qed.

Lemma drawn_placements_length lines : forall y p,
  length (placements p (drawn height y lines)) = length lines.
Proof.
  induction lines as [|l rest IH]; intros y p; [reflexivity|].
  rewrite drawn_cons. cbn [placements length].
  destruct (Qlt_bool (y - 14) 40); cbn [placements]; rewrite IH; reflexivity.
Qed.

End Pagination.

Section PdfExport.
Context {Ser : Serializers}.

(** C5, as the code has it: the PDF export draws the first line at 40 units
    below the top of the page and each following line 14 units lower; a page
    takes floor((height - 80) / 14) + 1 lines, one more than the count the
    specification gives, and a page break follows every full page: line [i]
    lands on page [i / cap] at height [height - 40 - 14 * (i mod cap)], the
    breaks number [N / cap], and the first one comes after [cap] lines. *)
Theorem pdf_page_breaks (width height : Q) (text : str) :
  (80 <= height)%Q ->
  let lines := split newline text in
  let ops := code (pdf_canvas (width, height) text) in
  let cap := lines_per_page height in
  getvalue (generate_pdf_file_on (width, height) text)
    = pdf_save (pdf_canvas (width, height) text)
  /\ (exists first rest, ops = DrawString 40 (height - 40) first :: rest)
  /\ length (placements 0 ops) = length lines
  /\ (forall i line, nth_error lines i = Some line ->
        exists y,
          nth_error (placements 0 ops) i = Some (i / cap, 40%Q, y, line)
          /\ (y == height - 40 - 14 * inject_Z (Z.of_nat (i mod cap)))%Q)
  /\ cap = S (spec_lines_per_page height)
  /\ page_breaks ops = length lines / cap
  /\ first_break_after ops = (if cap <=? length lines then Some cap else None)
  /\ (cap <= length lines < 2 * cap -> page_breaks ops = 1).
Proof.
  intros tall lines ops cap. subst ops. rewrite pdf_canvas_code.
  cbn [snd]. fold lines.
  assert (Hbreaks : page_breaks (drawn height (height - 40) lines) = length lines / cap).
  { exact (drawn_page_breaks tall lines (cursor_top height)). }
  split; [|split; [|split; [|split; [|split; [|split; [|split]]]]]].
  - unfold generate_pdf_file_on, seek, BytesIO_write, BytesIO_new. simpl.
    rewrite skipn_nil, app_nil_r. reflexivity.
  - destruct lines as [|first rest] eqn:E;
      [exfalso; exact (split_nonempty _ _ E)|].
    rewrite drawn_cons. eexists; eexists; reflexivity.
  - apply drawn_placements_length.
  - intros i line Hi.
    exact (drawn_placements tall lines 0 (cursor_top height) i Hi).
  - reflexivity.
  - exact Hbreaks.
  - rewrite (drawn_first_break tall lines (cursor_top height)).
    change (0 + length lines) with (length lines). rewrite Nat.sub_0_r. reflexivity.
  - intros [Hlo Hhi]. rewrite Hbreaks.
    replace (length lines) with (cap + (length lines - cap)) by lia.
    rewrite div_full_page by (unfold cap, lines_per_page; lia).
    rewrite Nat.div_small by lia. reflexivity.
Qed.

End PdfExport.

(** ** The stand-in serialisers satisfy the laws *)

Lemma sample_docx_save_nonempty doc : sample_docx_save doc <> [].
Proof. discriminate. Qed.

Lemma sample_pdf_save_nonempty pdf : sample_pdf_save pdf <> [].
Proof. discriminate. Qed.

Definition sample_serializers : Serializers :=
  {| docx_save := sample_docx_save;
     pdf_save := sample_pdf_save;
     docx_save_nonempty := sample_docx_save_nonempty;
     pdf_save_nonempty := sample_pdf_save_nonempty |}.

Lemma pdf_page_breaks_witness :
  let ops := code (pdf_canvas (600, 800)%Q (repeat newline 59)) in
  (80 <= 800)%Q
  /\ lines_per_page 800 = 52
  /\ page_breaks ops = 60 / 52
  /\ first_break_after ops = Some 52.
Proof.
  assert (tall : (80 <= 800)%Q) by (unfold Qle; simpl; lia).
  split; [exact tall|]. split; [reflexivity|].
  destruct (@pdf_page_breaks sample_serializers 600 800 (repeat newline 59) tall)
    as (_ & _ & _ & _ & _ & Hbreaks & Hfirst & _).
  split; [exact Hbreaks | exact Hfirst].
Defined.

(** C5 as the specification words it fails: on a page 800 units high the
    first break comes after 52 lines, not after floor((800 - 80) / 14) = 51,
    the 52nd line still being drawn on the first page at height 46; on an A4
    page it comes after 55 lines, not 54. *)
Lemma pdf_break_not_after_spec_count :
  let ops := code (pdf_canvas (600, 800)%Q (repeat newline 59)) in
  spec_lines_per_page 800 = 51
  /\ first_break_after ops <> Some (spec_lines_per_page 800)
  /\ first_break_after ops = Some 52
  /\ nth_error (placements 0 ops) 51 = Some (0, 40%Q, 46%Q, [])
  /\ spec_lines_per_page (snd A4) = 54
  /\ first_break_after (code (pdf_canvas A4 (repeat newline 59))) = Some 55.
Proof.
  cbv zeta. split; [reflexivity|]. split; [vm_compute; discriminate|].
  repeat split; vm_compute; reflexivity.
Qed.

(** ** Normalisation of ASCII text *)

Lemma re_sub_plus_from_ext cls1 cls2 repl b s :
  (forall c, In c s -> cls1 c = cls2 c) ->
  re_sub_plus_from cls1 repl b s = re_sub_plus_from cls2 repl b s.
Proof.
  revert b; induction s as [|c s IH]; intros b H; simpl; [reflexivity|].
  rewrite (H c) by (left; reflexivity).
  assert (Hs : forall d, In d s -> cls1 d = cls2 d) by (intros d Hd; apply H; right; exact Hd).
  destruct (cls2 c); rewrite (IH _ Hs); reflexivity.
Qed.

Lemma ascii_lower_ascii c : is_ascii c = true -> is_ascii (ascii_lower c) = true.
Proof.
  unfold ascii_lower. destruct (is_ascii_upper c) eqn:E; [|trivial].
  intros _. unfold is_ascii_upper, is_ascii in *.
  apply andb_true_iff in E as [E1 E2]. apply N.leb_le in E1, E2.
  apply N.ltb_lt. lia.
Qed.

(** On ASCII text every choice of tables cleans alike. *)
Lemma clean_text_ascii (U V : Unicode) s :
  forallb is_ascii s = true -> @clean_text U s = @clean_text V s.
Proof.
  intros H. unfold clean_text, re_sub_plus.
  rewrite (@lower_ascii U s H), (@lower_ascii V s H).
  rewrite (@re_sub_plus_from_ext (@isdecimal U) (@isdecimal V)); [reflexivity|].
  intros c Hc. apply in_map_iff in Hc as (d & <- & Hd).
  rewrite forallb_forall in H.
  rewrite !isdecimal_ascii by (apply ascii_lower_ascii, H, Hd). reflexivity.
Qed.

(** ** The submit handler *)

Section Submit.
Context {U : Unicode} {C : Classifier} {Ser : Serializers}.

Lemma blank_test s : str_eqb (strip s) (lit "") = forallb isspace s.
Proof.
  destruct (forallb isspace s) eqn:E.
  - rewrite (strip_blank _ E). reflexivity.
  - destruct (str_eqb (strip s) (lit "")) eqn:E'; [|reflexivity].
    apply str_eqb_eq in E'. apply strip_nil_blank in E'. congruence.
Qed.

Lemma word_buffer_nonempty text word_file :
  generate_word_file text = Done word_file -> getvalue word_file <> [].
Proof.
  unfold generate_word_file. destruct (word_document text) as [doc|e]; [|discriminate].
  intros [= <-]. unfold seek, BytesIO_write, BytesIO_new. simpl.
  rewrite skipn_nil, app_nil_r. apply docx_save_nonempty.
Qed.

Lemma pdf_buffer_nonempty text : getvalue (generate_pdf_file text) <> [].
Proof.
  unfold generate_pdf_file, generate_pdf_file_on, seek, BytesIO_write, BytesIO_new.
  simpl. rewrite skipn_nil, app_nil_r. apply pdf_save_nonempty.
Qed.

(** The generated documents hold what XML can hold when what they embed
    does. *)
Lemma generate_resume_compatible role :
  forallb xml_compatible role = true ->
  forallb xml_compatible (generate_resume role) = true.
Proof.
  intros H. unfold generate_resume. rewrite !forallb_app, H. reflexivity.
Qed.

Lemma generate_cover_letter_compatible role :
  forallb xml_compatible role = true ->
  forallb xml_compatible (generate_cover_letter role) = true.
Proof.
  intros H. unfold generate_cover_letter. rewrite !forallb_app, H. reflexivity.
Qed.

Lemma generate_portfolio_compatible role :
  forallb xml_compatible role = true ->
  forallb xml_compatible (generate_portfolio role) = true.
Proof.
  intros H. unfold generate_portfolio. rewrite !forallb_app, H. reflexivity.
Qed.

Lemma customize_for_job_compatible role resume_input job_desc :
  forallb xml_compatible role = true ->
  forallb xml_compatible resume_input = true ->
  forallb xml_compatible job_desc = true ->
  forallb xml_compatible (customize_for_job role resume_input job_desc) = true.
Proof.
  intros Hr Ht Hj. unfold customize_for_job.
  destruct (str_eqb (strip job_desc) (lit ""));
    [apply generate_resume_compatible, Hr|].
  rewrite !forallb_app, Hr, Ht, Hj. reflexivity.
Qed.

(** A run on a resume text that is not blank, entry by entry. *)
Lemma run_on_submit option resume_text job_description :
  forallb isspace resume_text = false ->
  run (submit true option resume_text job_description)
  = match option with
    | PredictJobCategory =>
        (Done tt,
         classified resume_text ++ [Info (lit "Job category predicted successfully.")])
    | GenerateResume =>
        exported (classified resume_text) (lit "Generated Resume")
          (customize_for_job (classify (vectorize (clean_text resume_text)))
             resume_text job_description)
          (lit "Download Resume (Word)") (lit "resume.docx")
          (lit "Download Resume (PDF)") (lit "resume.pdf") []
    | GenerateCoverLetter =>
        exported (classified resume_text) (lit "Generated Cover Letter")
          (generate_cover_letter (classify (vectorize (clean_text resume_text))))
          (lit "Download Cover Letter (Word)") (lit "cover_letter.docx")
          (lit "Download Cover Letter (PDF)") (lit "cover_letter.pdf") []
    | GeneratePortfolio =>
        exported (classified resume_text) (lit "Generated Portfolio")
          (generate_portfolio (classify (vectorize (clean_text resume_text))))
          (lit "Download Portfolio (Word)") (lit "portfolio.docx")
          (lit "Download Portfolio (PDF)") (lit "portfolio.pdf")
          [DownloadButton (lit "Download Portfolio Website (HTML)")
             (Text (generate_portfolio_website
                      (classify (vectorize (clean_text resume_text))) resume_text))
             (lit "portfolio.html") (Some (lit "text/html"))]
    end.
Proof.
  intros H. unfold run, submit, on_submit. rewrite blank_test, H.
  unfold exported, classified.
  destruct option;
    cbv beta iota zeta delta [bind emit ret call raise first_item tfidf_transform
                              model_predict st_markdown st_text_area st_info
                              st_download_button map app];
    try reflexivity;
    match goal with
    | |- context [generate_word_file ?t] => destruct (generate_word_file t)
    end; reflexivity.
Qed.

(** C7: with a resume text that is empty or all whitespace the handler
    shows the warning and does nothing else: it makes no call to the
    vectoriser or the model, shows no generated text and offers no file. *)
Theorem blank_resume_only_warns (option : menu_option)
    (resume_text job_description : str) :
  forallb isspace resume_text = true ->
  let result := run (submit true option resume_text job_description) in
  result = (Done tt, [Warning (lit "Please enter resume text.")])
  /\ transform_calls (snd result) = []
  /\ predict_calls (snd result) = []
  /\ text_areas (snd result) = []
  /\ artifacts (snd result) = [].
Proof.
  intros H result.
  assert (E : result = (Done tt, [Warning (lit "Please enter resume text.")])).
  { unfold result, run, submit, on_submit. rewrite blank_test, H. reflexivity. }
  rewrite E. repeat split.
Qed.

(** C9: for the cover letter and the portfolio the job description changes
    nothing: two runs that differ in it alone give the same outcome, the
    same elements with the same texts and the same files. *)
Theorem job_description_ignored (clicked : bool)
    (resume_text job_description1 job_description2 : str) :
  run (submit clicked GenerateCoverLetter resume_text job_description1)
  = run (submit clicked GenerateCoverLetter resume_text job_description2)
  /\ run (submit clicked GeneratePortfolio resume_text job_description1)
     = run (submit clicked GeneratePortfolio resume_text job_description2).
Proof. split; reflexivity. Qed.

(** C6: the portfolio page is the fixed skeleton with the label between
    [<title>Portfolio - ] and [</title>] and the candidate text, character
    for character, between [<pre>] and [</pre>]; and the portfolio option
    builds the page it offers as [portfolio.html] from the predicted label
    and the resume text as typed. *)
Theorem portfolio_website_embeds_raw_text (resume_text job_description : str) :
  forallb isspace resume_text = false ->
  let role := classify (vectorize (clean_text resume_text)) in
  let log := trace (submit true GeneratePortfolio resume_text job_description) in
  (exists (head tail : str) (mid : str -> str),
     forall label text,
       generate_portfolio_website label text
       = head ++ lit "<title>Portfolio - " ++ label ++ lit "</title>"
         ++ mid label
         ++ lit "<pre>" ++ nl ++ text ++ nl ++ lit "</pre>" ++ tail)
  /\ In (DownloadButton (lit "Download Portfolio Website (HTML)")
           (Text (generate_portfolio_website role resume_text))
           (lit "portfolio.html") (Some (lit "text/html"))) log
  /\ (exists word_file,
        generate_word_file (generate_portfolio role) = Done word_file
        /\ artifacts log
           = [(lit "portfolio.docx", Bytes word_file);
              (lit "portfolio.pdf", Bytes (generate_pdf_file (generate_portfolio role)));
              (lit "portfolio.html", Text (generate_portfolio_website role resume_text))]).
Proof.
  intros H role log. split.
  - exists (lit "<!DOCTYPE html>" ++ nl ++ lit "<html lang='en'>" ++ nl
            ++ lit "<head>" ++ nl ++ lit "  <meta charset='UTF-8'>" ++ nl
            ++ lit "  <meta name='viewport' content='width=device-width, "
            ++ lit "initial-scale=1.0'>" ++ nl ++ lit "  ").
    exists (nl ++ nl ++ lit "</body>" ++ nl ++ lit "</html>" ++ nl).
    exists (fun label => nl ++ lit "</head>" ++ nl ++ lit "<body>" ++ nl ++ nl
                         ++ lit "<h1>Portfolio " ++ [8211%N] ++ lit " " ++ label
                         ++ lit "</h1>" ++ nl ++ nl).
    intros label text. unfold generate_portfolio_website.
    repeat rewrite <- app_assoc. reflexivity.
  - destruct (generate_word_file_ok (generate_portfolio role)
                (generate_portfolio_compatible role (classify_xml_compatible _)))
      as (doc & _ & Hfile & _).
    assert (E : log =
      classified resume_text
      ++ [TextArea (lit "Generated Portfolio") (generate_portfolio role) 350;
          DownloadButton (lit "Download Portfolio (Word)")
            (Bytes {| getvalue := docx_save doc; tell := 0 |}) (lit "portfolio.docx") None;
          DownloadButton (lit "Download Portfolio (PDF)")
            (Bytes (generate_pdf_file (generate_portfolio role))) (lit "portfolio.pdf") None]
      ++ [DownloadButton (lit "Download Portfolio Website (HTML)")
            (Text (generate_portfolio_website role resume_text))
            (lit "portfolio.html") (Some (lit "text/html"))]).
    { unfold log, trace. rewrite (run_on_submit GeneratePortfolio _ job_description H).
      fold role. unfold exported. rewrite Hfile. reflexivity. }
    rewrite E. split.
    + unfold classified. do 6 right. left. reflexivity.
    + eexists. split; [exact Hfile | reflexivity].
Qed.

(** C8: the resume run on "Experienced Python developer with 5 years in data
    science." with no job description: the text handed to the vectoriser is
    "experienced python developer with years in data science", the model is
    called once, the files offered are resume.docx and resume.pdf, both
    non-empty buffers, and the resume shown has the predicted label right
    after "Target Role: ". *)
Theorem resume_end_to_end :
  let input := lit "Experienced Python developer with 5 years in data science." in
  let normalized := lit "experienced python developer with years in data science" in
  let label := classify (vectorize normalized) in
  let result := run (submit true GenerateResume input (lit "")) in
  clean_text input = normalized
  /\ fst result = Done tt
  /\ transform_calls (snd result) = [[normalized]]
  /\ predict_calls (snd result) = [[vectorize normalized]]
  /\ (exists docx pdf,
        artifacts (snd result)
        = [(lit "resume.docx", Bytes docx); (lit "resume.pdf", Bytes pdf)]
        /\ getvalue docx <> [] /\ getvalue pdf <> [])
  /\ (exists shown rest,
        text_areas (snd result) = [(lit "Generated Resume", shown)]
        /\ shown = lit "PROFESSIONAL RESUME" ++ nl ++ nl
                   ++ lit "Target Role: " ++ label ++ rest).
Proof.
  intros input normalized label result.
  assert (Hclean : clean_text input = normalized).
  { rewrite (@clean_text_ascii U BasicLatin_tables) by reflexivity. reflexivity. }
  assert (Hblank : forallb isspace input = false) by reflexivity.
  assert (Hplain : customize_for_job label input (lit "") = generate_resume label)
    by reflexivity.
  destruct (generate_word_file_ok (generate_resume label)
              (generate_resume_compatible label (classify_xml_compatible _)))
    as (doc & _ & Hfile & _).
  assert (E : result = (Done tt,
      [Transform [normalized];
       Predict [vectorize normalized];
       Markdown (lit "<div class='result-box'>" ++ lit "Predicted Job Category: "
                 ++ label ++ lit "</div>") true;
       TextArea (lit "Generated Resume") (generate_resume label) 350;
       DownloadButton (lit "Download Resume (Word)")
         (Bytes {| getvalue := docx_save doc; tell := 0 |}) (lit "resume.docx") None;
       DownloadButton (lit "Download Resume (PDF)")
         (Bytes (generate_pdf_file (generate_resume label))) (lit "resume.pdf") None])).
  { unfold result. rewrite (run_on_submit GenerateResume _ (lit "") Hblank).
    unfold classified. rewrite Hclean. fold label.
    rewrite Hplain. unfold exported. rewrite Hfile. reflexivity. }
  rewrite E. split; [exact Hclean|]. repeat (split; [reflexivity|]). split.
  - eexists; eexists. split; [reflexivity|].
    split; [exact (word_buffer_nonempty _ Hfile) | apply pdf_buffer_nonempty].
  - eexists; eexists. split; [reflexivity|].
    unfold generate_resume. repeat rewrite <- app_assoc. reflexivity.
Qed.

End Submit.

(** ** The theorems at the stand-ins *)

Lemma generate_word_file_paragraphs_witness :
  forallb xml_compatible (lit "a" ++ [13; 10; 10]%N ++ lit "b") = true
  /\ exists doc,
       @generate_word_file sample_serializers (lit "a" ++ [13; 10; 10]%N ++ lit "b")
       = Done {| getvalue := sample_docx_save doc; tell := 0 |}
       /\ map p_text (paragraphs doc) = [lit "a" ++ nl; lit ""; lit "b"].
Proof.
  split; [reflexivity|].
  destruct (proj1 (@generate_word_file_paragraphs sample_serializers
                     (lit "a" ++ [13; 10; 10]%N ++ lit "b")) eq_refl)
    as (doc & _ & Hfile & _ & Htexts & _).
  exists doc. split; [exact Hfile | exact Htexts].
Defined.

(** C4 as the specification words it fails: a text with a form feed gives
    no document, the export raising [ValueError]; and a line that ends in
    a carriage return gives a paragraph that reads as another text, the
    carriage return being kept as a line break. *)
Lemma word_export_raises_or_rewrites :
  @generate_word_file sample_serializers (lit "a" ++ [12%N] ++ lit "b")
  = Raised BytesIO (lit "ValueError")
  /\ word_document (lit "a" ++ [13; 10]%N ++ lit "b")
     = Done {| paragraphs :=
                 [{| p_runs := [[RunText (lit "a"); RunBreak]]; p_style := None |};
                  {| p_runs := [[RunText (lit "b")]]; p_style := None |}] |}
  /\ map p_text [{| p_runs := [[RunText (lit "a"); RunBreak]]; p_style := None |};
                 {| p_runs := [[RunText (lit "b")]]; p_style := None |}]
     <> split newline (lit "a" ++ [13; 10]%N ++ lit "b").
Proof.
  split; [reflexivity|]. split; [reflexivity|]. discriminate.
Qed.

Lemma generate_word_file_paragraph_count_witness :
  forallb xml_compatible (lit "a" ++ nl ++ nl ++ lit "b") = true
  /\ exists doc,
       @generate_word_file sample_serializers (lit "a" ++ nl ++ nl ++ lit "b")
       = Done {| getvalue := sample_docx_save doc; tell := 0 |}
       /\ length (paragraphs doc) = 2 + 1.
Proof.
  split; [reflexivity|].
  destruct (proj1 (@generate_word_file_paragraph_count sample_serializers
                     (lit "a" ++ nl ++ nl ++ lit "b")) eq_refl)
    as (doc & Hfile & Hcount & _).
  exists doc. split; [exact Hfile | exact Hcount].
Defined.

(** C10 as it is worded fails: a text of two lines whose second holds a
    vertical tab has one newline character, and the export makes no
    document of two paragraphs: it raises [ValueError]. *)
Lemma word_export_makes_no_paragraph :
  count_occ N.eq_dec (lit "a" ++ nl ++ [11%N]) newline + 1 = 2
  /\ word_document (lit "a" ++ nl ++ [11%N]) = Raised document (lit "ValueError")
  /\ @generate_word_file sample_serializers (lit "a" ++ nl ++ [11%N])
     = Raised BytesIO (lit "ValueError").
Proof. repeat split. Qed.

Lemma blank_resume_only_warns_witness :
  forallb isspace (lit "   ") = true
  /\ run (@submit BasicLatin_tables sample_classifier sample_serializers
            true GenerateResume (lit "   ") (lit "Python developer"))
     = (Done tt, [Warning (lit "Please enter resume text.")]).
Proof.
  split; [reflexivity|].
  exact (proj1 (@blank_resume_only_warns BasicLatin_tables sample_classifier
                  sample_serializers GenerateResume (lit "   ")
                  (lit "Python developer") eq_refl)).
Defined.

Lemma job_description_ignored_witness :
  run (@submit BasicLatin_tables sample_classifier sample_serializers
         true GeneratePortfolio sample_text (lit ""))
  = run (@submit BasicLatin_tables sample_classifier sample_serializers
           true GeneratePortfolio sample_text (lit "Python developer")).
Proof.
  exact (proj2 (@job_description_ignored BasicLatin_tables sample_classifier
                  sample_serializers true sample_text (lit "")
                  (lit "Python developer"))).
Defined.

Lemma portfolio_website_embeds_raw_text_witness :
  forallb isspace sample_text = false
  /\ @clean_text BasicLatin_tables sample_text <> sample_text
  /\ In (DownloadButton (lit "Download Portfolio Website (HTML)")
           (Text (generate_portfolio_website (lit "Data Science") sample_text))
           (lit "portfolio.html") (Some (lit "text/html")))
        (trace (@submit BasicLatin_tables sample_classifier sample_serializers
                  true GeneratePortfolio sample_text (lit ""))).
Proof.
  split; [reflexivity|]. split; [discriminate|].
  exact (proj1 (proj2 (@portfolio_website_embeds_raw_text BasicLatin_tables
                         sample_classifier sample_serializers sample_text
                         (lit "") eq_refl))).
Defined.

Lemma resume_end_to_end_witness :
  @clean_text BasicLatin_tables
    (lit "Experienced Python developer with 5 years in data science.")
  = lit "experienced python developer with years in data science"
  /\ predict_calls
       (trace (@submit BasicLatin_tables sample_classifier sample_serializers true
                 GenerateResume
                 (lit "Experienced Python developer with 5 years in data science.")
                 (lit "")))
     = [[55]].
Proof.
  destruct (@resume_end_to_end BasicLatin_tables sample_classifier sample_serializers)
    as (Hclean & _ & _ & Hpredict & _).
  split; [exact Hclean | exact Hpredict].
Defined.

(** * Further properties of the pipeline *)

(** ** Job customisation: when the plain resume comes back *)

(** X1: the customised resume is the plain resume of the label exactly when
    the job description is empty or all whitespace; any other job
    description gives a different document. *)
Theorem customize_for_job_plain_iff (role resume_input job_desc : str) :
  customize_for_job role resume_input job_desc = generate_resume role
  <-> forallb isspace job_desc = true.
Proof.
  unfold customize_for_job. rewrite blank_test.
  destruct (forallb isspace job_desc).
  - split; reflexivity.
  - split; [|intros H; discriminate H].
    intros H. apply (f_equal (fun text => nth_error text 19)) in H.
    vm_compute in H. discriminate H.
Qed.

(** ** Normalisation: what survives *)

Lemma filter_re_sub_plus_from (p cls : char -> bool) repl b s :
  (forall c, p c = true -> cls c = false) ->
  filter p repl = [] ->
  filter p (re_sub_plus_from cls repl b s) = filter p s.
Proof.
  intros Hp Hrepl. revert b; induction s as [|c s IH]; intros b; simpl; [reflexivity|].
  destruct (cls c) eqn:E.
  - rewrite filter_app, IH.
    destruct (p c) eqn:Ep; [rewrite (Hp c Ep) in E; discriminate|].
    destruct b; [reflexivity | rewrite Hrepl; reflexivity].
  - simpl. rewrite IH. reflexivity.
Qed.

Lemma filter_re_sub_class (p cls : char -> bool) s :
  (forall c, p c = true -> cls c = false) ->
  filter p (re_sub_class cls [] s) = filter p s.
Proof.
  intros Hp. unfold re_sub_class. induction s as [|c s IH]; simpl; [reflexivity|].
  destruct (cls c) eqn:E; simpl; rewrite IH.
  - destruct (p c) eqn:Ep; [rewrite (Hp c Ep) in E; discriminate | reflexivity].
  - reflexivity.
Qed.

Lemma lower_letter_ascii c : is_ascii_lower c = true -> is_ascii c = true.
Proof. intros H. apply clean_char_ascii. unfold clean_char. rewrite H. reflexivity. Qed.

Lemma lower_letter_kept c : is_ascii_lower c = true -> not_letter_or_space c = false.
Proof. intros H. apply clean_char_kept. unfold clean_char. rewrite H. reflexivity. Qed.

Lemma lower_letter_not_space c : is_ascii_lower c = true -> isspace c = false.
Proof.
  intros H. destruct (isspace c) eqn:E; [|reflexivity].
  exfalso. char_cases; lia.
Qed.

Lemma lower_letter_not_digit c : is_ascii_lower c = true -> is_ascii_digit c = false.
Proof. intros H. apply clean_char_not_digit. unfold clean_char. rewrite H. reflexivity. Qed.

Lemma ascii_lower_is_lower c : is_ascii_lower (ascii_lower c) = is_ascii_letter c.
Proof.
  unfold is_ascii_letter, ascii_lower.
  destruct (is_ascii_upper c) eqn:Eu.
  - rewrite orb_true_r. unfold is_ascii_upper, is_ascii_lower in *.
    apply andb_true_iff in Eu as [E1 E2]. apply N.leb_le in E1, E2.
    apply andb_true_iff. split; apply N.leb_le; lia.
  - rewrite orb_false_r. reflexivity.
Qed.

Lemma filter_lower_letters s :
  filter is_ascii_lower (map ascii_lower s) = map ascii_lower (filter is_ascii_letter s).
Proof.
  induction s as [|c s IH]; simpl; [reflexivity|].
  rewrite ascii_lower_is_lower, IH. destruct (is_ascii_letter c); reflexivity.
Qed.

Section Survivors.
Context {U : Unicode}.

Lemma clean_text_letters_of_lower s :
  filter is_ascii_lower (clean_text s) = filter is_ascii_lower (lower s).
Proof.
  unfold clean_text, re_sub_plus.
  rewrite filter_re_sub_plus_from;
    [|exact lower_letter_not_space | reflexivity].
  rewrite filter_re_sub_class by exact lower_letter_kept.
  rewrite filter_re_sub_plus_from; [reflexivity | | reflexivity].
  intros c Hc. rewrite isdecimal_ascii by (apply lower_letter_ascii, Hc).
  apply lower_letter_not_digit, Hc.
Qed.

(** X2: normalisation loses no letter and moves none: the letters of a
    cleaned ASCII text are the letters of the text, lowered, in their
    order.  (For any text they are the letters a-z of its lowercase
    form.) *)
Theorem clean_text_keeps_letters (s : str) :
  forallb is_ascii s = true ->
  filter is_ascii_lower (clean_text s)
  = map ascii_lower (filter is_ascii_letter s).
Proof.
  intros H. rewrite clean_text_letters_of_lower, (lower_ascii s H).
  apply filter_lower_letters.
Qed.

End Survivors.

Lemma clean_text_keeps_letters_witness :
  forallb is_ascii (lit "R2-D2, C3PO & Co.") = true
  /\ filter is_ascii_lower (@clean_text BasicLatin_tables (lit "R2-D2, C3PO & Co."))
     = lit "rdcpoco".
Proof.
  split; [reflexivity|].
  exact (@clean_text_keeps_letters BasicLatin_tables (lit "R2-D2, C3PO & Co.") eq_refl).
Defined.

(** ** Normalisation: when nothing is left *)

Lemma re_sub_plus_nil cls repl s :
  repl <> [] -> re_sub_plus cls repl s = [] -> s = [].
Proof.
  intros Hrepl. unfold re_sub_plus. destruct s as [|c s]; [reflexivity|].
  simpl. destruct (cls c); [|discriminate].
  destruct repl; [contradiction | discriminate].
Qed.

Lemma re_sub_plus_from_delete_keeps cls b s c :
  In c s -> cls c = false -> In c (re_sub_plus_from cls [] b s).
Proof.
  revert b; induction s as [|d s IH]; intros b; simpl; [tauto|].
  intros [-> | H] Hc.
  - rewrite Hc. left; reflexivity.
  - destruct (cls d); [destruct b|]; simpl; auto.
Qed.

Lemma re_sub_class_delete_keeps cls s c :
  In c s -> cls c = false -> In c (re_sub_class cls [] s).
Proof.
  unfold re_sub_class. induction s as [|d s IH]; simpl; [tauto|].
  intros [-> | H] Hc.
  - rewrite Hc. left; reflexivity.
  - destruct (cls d); simpl; auto.
Qed.

Lemma ascii_lower_class c :
  is_ascii c = true ->
  not_letter_or_space (ascii_lower c) = not_letter_or_space c
  /\ is_ascii_digit (ascii_lower c) = is_ascii_digit c.
Proof.
  intros Hc. unfold ascii_lower. destruct (is_ascii_upper c) eqn:Eu; [|split; reflexivity].
  unfold not_letter_or_space, is_ascii_digit. rewrite Eu.
  unfold is_ascii_upper in Eu. apply andb_true_iff in Eu as [E1 E2].
  apply N.leb_le in E1, E2.
  assert (Hl : is_ascii_lower (c + 32)%N = true).
  { unfold is_ascii_lower. apply andb_true_iff. split; apply N.leb_le; lia. }
  rewrite Hl, orb_true_r. simpl. split; [reflexivity|].
  replace (c + 32 <=? 57)%N with false by (symmetry; apply N.leb_gt; lia).
  replace (48 <=? c)%N with true by (symmetry; apply N.leb_le; lia).
  replace (c <=? 57)%N with false by (symmetry; apply N.leb_gt; lia).
  rewrite andb_false_r. reflexivity.
Qed.

Lemma kept_not_digit c :
  not_letter_or_space c = false -> is_ascii_digit c = false.
Proof.
  intros H. destruct (is_ascii_digit c) eqn:E; [|reflexivity].
  exfalso. char_cases; lia.
Qed.

Section Emptied.
Context {U : Unicode}.

Lemma clean_text_nothing_kept (s : str) :
  forallb is_ascii s = true ->
  forallb not_letter_or_space s = true ->
  clean_text s = [].
Proof.
  intros Hascii H. pose proof Hascii as Hall. rewrite forallb_forall in Hall.
  rewrite forallb_forall in H.
  unfold clean_text. rewrite (lower_ascii s Hascii).
  replace (re_sub_class not_letter_or_space []
             (re_sub_plus isdecimal [] (map ascii_lower s))) with (@nil char);
    [reflexivity|].
  symmetry.
  destruct (re_sub_class not_letter_or_space []
              (re_sub_plus isdecimal [] (map ascii_lower s))) as [|c r] eqn:E;
    [reflexivity|]. exfalso.
  assert (Hin : In c (re_sub_class not_letter_or_space []
                        (re_sub_plus isdecimal [] (map ascii_lower s))))
    by (rewrite E; left; reflexivity).
  apply re_sub_class_delete_In in Hin as [Hin Hkept].
  apply re_sub_plus_from_delete_In in Hin as [Hin _].
  apply in_map_iff in Hin as (d & <- & Hd).
  rewrite (proj1 (ascii_lower_class d (Hall d Hd))), (H d Hd) in Hkept.
  discriminate Hkept.
Qed.

(** X3: an ASCII text is cleaned to the empty string exactly when it holds
    no letter and no whitespace: digits and punctuation alone leave
    nothing, one letter or one blank leaves something. *)
Theorem clean_text_empty_iff (s : str) :
  forallb is_ascii s = true ->
  (clean_text s = [] <-> forallb not_letter_or_space s = true).
Proof.
  intros Hascii. split; [|exact (clean_text_nothing_kept s Hascii)].
  pose proof Hascii as Hall. rewrite forallb_forall in Hall.
  unfold clean_text. rewrite (lower_ascii s Hascii).
  intros H. apply re_sub_plus_nil in H; [|discriminate].
  apply forallb_forall. intros c Hc.
  destruct (not_letter_or_space c) eqn:E; [reflexivity|]. exfalso.
  pose proof (ascii_lower_class c (Hall c Hc)) as [Hcls Hdig].
  assert (Hin : In (ascii_lower c)
                   (re_sub_class not_letter_or_space []
                      (re_sub_plus isdecimal [] (map ascii_lower s)))).
  { apply re_sub_class_delete_keeps; [|congruence].
    apply re_sub_plus_from_delete_keeps; [apply in_map, Hc|].
    rewrite isdecimal_ascii by (apply ascii_lower_ascii, Hall, Hc).
    rewrite Hdig. apply kept_not_digit, E. }
  rewrite H in Hin. exact Hin.
Qed.

End Emptied.

Lemma clean_text_empty_iff_witness :
  forallb is_ascii (lit "+1 (555) 010-9999") = true
  /\ (@clean_text BasicLatin_tables (lit "+1 (555) 010-9999") = [] -> False)
  /\ @clean_text BasicLatin_tables (lit "+1-555-010-9999") = [].
Proof.
  split; [reflexivity|]. split.
  - intros H.
    apply (proj1 (@clean_text_empty_iff BasicLatin_tables (lit "+1 (555) 010-9999") eq_refl)) in H.
    discriminate H.
  - apply (proj2 (@clean_text_empty_iff BasicLatin_tables (lit "+1-555-010-9999") eq_refl)).
    reflexivity.
Defined.

(** ** The Word export: what reads back, and when it raises *)

Lemma join_read_back lines :
  join newline (map read_back lines) = read_back (join newline lines).
Proof.
  induction lines as [|l lines IH]; [reflexivity|].
  destruct lines as [|l' lines]; [reflexivity|].
  change (join newline (map read_back (l :: l' :: lines)))
    with (read_back l ++ newline :: join newline (map read_back (l' :: lines))).
  rewrite IH. change (join newline (l :: l' :: lines))
    with (l ++ newline :: join newline (l' :: lines)).
  unfold read_back. rewrite map_app. reflexivity.
Qed.

Section WordRoundTrip.
Context {Ser : Serializers}.

(** X4: on a text XML can hold the Word export loses nothing but the
    difference between carriage return and line feed: the paragraph texts
    of the saved document, joined by newline characters, are the text with
    every carriage return turned into a line feed, so the text itself when
    it has no carriage return. *)
Theorem word_document_round_trip (text : str) :
  forallb xml_compatible text = true ->
  exists doc,
    generate_word_file text = Done {| getvalue := docx_save doc; tell := 0 |}
    /\ join newline (map p_text (paragraphs doc)) = read_back text
    /\ (~ In carriage_return text ->
        join newline (map p_text (paragraphs doc)) = text).
Proof.
  intros H. destruct (generate_word_file_ok text H) as (doc & _ & Hfile & Hps).
  exists doc. split; [exact Hfile|].
  assert (E : join newline (map p_text (paragraphs doc)) = read_back text).
  { rewrite (holds_lines_texts Hps), join_read_back, join_split. reflexivity. }
  split; [exact E|]. intros Hcr. rewrite E. apply read_back_plain, Hcr.
Qed.

(** X17: the Word export raises [ValueError] exactly on the texts that
    hold a character XML cannot hold (a control character other than tab,
    line feed and carriage return, a surrogate, U+FFFE or U+FFFF); on
    every other text it returns a buffer, rewound to its start. *)
Theorem generate_word_file_raises_iff (text : str) :
  (generate_word_file text = Raised BytesIO (lit "ValueError")
   <-> forallb xml_compatible text = false)
  /\ ((exists buffer, generate_word_file text = Done buffer /\ tell buffer = 0)
      <-> forallb xml_compatible text = true).
Proof.
  destruct (forallb xml_compatible text) eqn:H.
  - destruct (generate_word_file_ok text H) as (doc & _ & Hfile & _).
    rewrite Hfile. split; split; try discriminate; try reflexivity.
    intros _. eexists. split; reflexivity.
  - rewrite (generate_word_file_bad text H).
    split; split; try reflexivity; try discriminate.
    intros (buffer & E & _). discriminate E.
Qed.

End WordRoundTrip.

(** ** The PDF export: every line once, inside the margins *)

Lemma drawn_strings_drawn height lines : forall y,
  drawn_strings (drawn height y lines) = lines.
Proof.
  induction lines as [|l rest IH]; intros y; [reflexivity|].
  rewrite drawn_cons. unfold drawn_strings in *. cbn [flat_map app].
  destruct (Qlt_bool (y - 14) 40); cbn [flat_map app]; rewrite IH; reflexivity.
Qed.

Section PdfLines.
Context {Ser : Serializers}.

(** X5: on a page of any size the PDF export draws each line of the text
    once, whole and in order: the strings drawn, joined by newline
    characters, are the text.  Nothing is wrapped, cut or left out. *)
Theorem pdf_draws_every_line (pagesize : Q * Q) (text : str) :
  getvalue (generate_pdf_file_on pagesize text) = pdf_save (pdf_canvas pagesize text)
  /\ drawn_strings (code (pdf_canvas pagesize text)) = split newline text
  /\ join newline (drawn_strings (code (pdf_canvas pagesize text))) = text.
Proof.
  rewrite pdf_canvas_code, drawn_strings_drawn. split; [|split].
  - unfold generate_pdf_file_on, seek, BytesIO_write, BytesIO_new. simpl.
    rewrite skipn_nil, app_nil_r. reflexivity.
  - reflexivity.
  - apply join_split.
Qed.

End PdfLines.

Section Margins.
Variable height : Q.
Hypothesis tall : (80 <= height)%Q.

Lemma cursor_within y j :
  cursor_at height y j -> (40 <= y)%Q /\ (y <= height - 40)%Q.
Proof.
  intros [Hj Hy].
  destruct (floor_bounds tall) as (H0 & Hcap & Hlo & Hhi).
  set (f := Qfloor ((height - 80) / 14)) in *.
  assert (Hjf : (Z.of_nat j <= f)%Z) by lia.
  assert (H0j : (0 <= Z.of_nat j)%Z) by lia.
  rewrite Zle_Qle in Hjf, H0j. change (inject_Z 0) with 0%Q in H0j.
  split; lra.
Qed.

Lemma drawn_within lines : forall y j,
  cursor_at height y j -> Forall (within_margins height) (drawn height y lines).
Proof.
  induction lines as [|l rest IH]; intros y j Hc; [constructor|].
  rewrite drawn_cons. constructor.
  - simpl. split; [reflexivity | exact (cursor_within Hc)].
  - destruct (Qlt_bool (y - 14) 40) eqn:Hb.
    + constructor; [exact I | exact (IH _ 0 (cursor_top height))].
    + exact (IH _ (S j) (cursor_step tall Hc Hb)).
Qed.

(** What ends the canvas: a page break after the last line exactly when
    the last page is full. *)
Lemma drawn_last l rest : forall y j,
  cursor_at height y j ->
  (is_show_page (last (drawn height y (l :: rest)) (DrawString 0 0 [])) = true
   <-> (j + length (l :: rest)) mod lines_per_page height = 0).
Proof.
  revert l; induction rest as [|l' rest IH]; intros l y j Hc.
  - rewrite drawn_cons, drawn_nil. cbn [length].
    destruct (Qlt_bool (y - 14) 40) eqn:Hb.
    + pose proof (cursor_break tall Hc Hb) as Hfull.
      replace (j + 1) with (lines_per_page height) by lia.
      rewrite Nat.Div0.mod_same. simpl. tauto.
    + destruct (cursor_step tall Hc Hb) as [Hj _].
      replace (j + 1) with (S j) by lia.
      rewrite (Nat.mod_small _ _ Hj). simpl. split; [discriminate | lia].
  - rewrite drawn_cons.
    destruct (Qlt_bool (y - 14) 40) eqn:Hb.
    + pose proof (cursor_break tall Hc Hb) as Hfull.
      specialize (IH l' _ 0 (cursor_top height)).
      replace (j + length (l :: l' :: rest))
        with (lines_per_page height + length (l' :: rest)) by (cbn [length]; lia).
      rewrite mod_full_page. change (0 + ?n) with n in IH. rewrite <- IH.
      rewrite (drawn_cons height (height - 40)). reflexivity.
    + specialize (IH l' _ (S j) (cursor_step tall Hc Hb)).
      replace (j + length (l :: l' :: rest))
        with (S j + length (l' :: rest)) by (cbn [length]; lia).
      rewrite <- IH. rewrite (drawn_cons height (y - 14)). reflexivity.
Qed.

End Margins.

(** X6: on a page at least 80 units high every line is drawn at 40 units
    from the left edge and between the margins: never lower than 40 units
    above the bottom, never higher than 40 units below the top. *)
Theorem pdf_lines_within_margins (width height : Q) (text : str) :
  (80 <= height)%Q ->
  Forall (within_margins height) (code (pdf_canvas (width, height) text)).
Proof.
  intros tall. rewrite pdf_canvas_code. cbn [snd].
  exact (drawn_within tall _ (cursor_top height)).
Qed.

Lemma pdf_lines_within_margins_witness :
  (80 <= snd A4)%Q
  /\ Forall (within_margins (snd A4))
       (code (pdf_canvas A4 (generate_resume (lit "Data Science")))).
Proof.
  assert (tall : (80 <= snd A4)%Q) by (vm_compute; discriminate).
  split; [exact tall|].
  exact (@pdf_lines_within_margins (fst A4) (snd A4)
           (generate_resume (lit "Data Science")) tall).
Defined.

(** X7: the canvas ends with a page break exactly when the number of lines
    is a multiple of the lines a page takes: a text that fills its last
    page is followed by one more [showPage]. *)
Theorem pdf_trailing_page_break (width height : Q) (text : str) :
  (80 <= height)%Q ->
  (is_show_page (last (code (pdf_canvas (width, height) text)) (DrawString 0 0 [])) = true
   <-> length (split newline text) mod lines_per_page height = 0).
Proof.
  intros tall. rewrite pdf_canvas_code. cbn [snd].
  destruct (split newline text) as [|l rest] eqn:E;
    [exfalso; exact (split_nonempty _ _ E)|].
  exact (drawn_last tall l rest (cursor_top height)).
Qed.

Lemma pdf_trailing_page_break_witness :
  (80 <= 800)%Q
  /\ last (code (pdf_canvas (600, 800)%Q (repeat newline 51))) (DrawString 0 0 [])
     = ShowPage
  /\ (is_show_page (last (code (pdf_canvas (600, 800)%Q (repeat newline 51)))
                      (DrawString 0 0 [])) = true
      <-> length (split newline (repeat newline 51)) mod lines_per_page 800 = 0).
Proof.
  assert (tall : (80 <= 800)%Q) by (vm_compute; discriminate).
  split; [exact tall|]. split; [vm_compute; reflexivity|].
  exact (@pdf_trailing_page_break 600 800 (repeat newline 51) tall).
Defined.

(** ** The PDF export as the program calls it: A4 pages *)

Lemma A4_tall : (80 <= snd A4)%Q.
Proof. vm_compute. discriminate. Qed.

Lemma A4_lines_per_page : lines_per_page (snd A4) = 55.
Proof. vm_compute. reflexivity. Qed.

Section A4Pages.
Context {Ser : Serializers}.

(** X8: [generate_pdf_file] puts 55 lines on a page: a text of [n] lines
    gets [n / 55] page breaks, the first one after line 55, none at all up
    to 54 lines. *)
Theorem generate_pdf_file_pages (text : str) :
  let n := length (split newline text) in
  getvalue (generate_pdf_file text) = pdf_save (pdf_canvas A4 text)
  /\ page_breaks (code (pdf_canvas A4 text)) = n / 55
  /\ first_break_after (code (pdf_canvas A4 text))
     = (if 55 <=? n then Some 55 else None).
Proof.
  intros n. rewrite pdf_canvas_code.
  rewrite (drawn_page_breaks A4_tall _ (cursor_top (snd A4))).
  rewrite (drawn_first_break A4_tall _ (cursor_top (snd A4))).
  cbv zeta. rewrite A4_lines_per_page. fold n. split; [|split].
  - unfold generate_pdf_file, generate_pdf_file_on, seek, BytesIO_write, BytesIO_new.
    simpl. rewrite skipn_nil, app_nil_r. reflexivity.
  - reflexivity.
  - reflexivity.
Qed.

End A4Pages.

(** ** The generated documents: their length *)

Lemma lines_count text :
  length (split newline text) = S (count_occ N.eq_dec text newline).
Proof. apply split_length. Qed.

Lemma generate_resume_lines role :
  length (split newline (generate_resume role))
  = 28 + count_occ N.eq_dec role newline.
Proof.
  rewrite lines_count. unfold generate_resume. rewrite !count_occ_app.
  unfold char. generalize (count_occ N.eq_dec role newline). intros k.
  simpl. lia.
Qed.

Lemma generate_cover_letter_lines role :
  length (split newline (generate_cover_letter role))
  = 15 + count_occ N.eq_dec role newline.
Proof.
  rewrite lines_count. unfold generate_cover_letter. rewrite !count_occ_app.
  unfold char. generalize (count_occ N.eq_dec role newline). intros k.
  simpl. lia.
Qed.

Lemma generate_portfolio_lines role :
  length (split newline (generate_portfolio role))
  = 25 + count_occ N.eq_dec role newline.
Proof.
  rewrite lines_count. unfold generate_portfolio. rewrite !count_occ_app.
  unfold char. generalize (count_occ N.eq_dec role newline). intros k.
  simpl. lia.
Qed.

Lemma A4_page_breaks text :
  page_breaks (code (pdf_canvas A4 text)) = length (split newline text) / 55.
Proof.
  rewrite pdf_canvas_code.
  rewrite (drawn_page_breaks A4_tall _ (cursor_top (snd A4))).
  cbv zeta. rewrite A4_lines_per_page. reflexivity.
Qed.

Lemma word_paragraph_count text :
  forallb xml_compatible text = true ->
  exists doc, word_document text = Done doc
              /\ length (paragraphs doc) = length (split newline text).
Proof.
  intros H. destruct (word_document_ok text H) as (doc & E & Hps).
  exists doc. split; [exact E | symmetry; exact (Forall2_length Hps)].
Qed.

(** X9: for a label XML can hold and without a newline character the three
    generated documents have 28, 15 and 25 lines (the last one empty, after
    the closing newline): the Word export returns a document of as many
    paragraphs and each PDF is a single page, without a page break. *)
Theorem generated_documents_one_page (role : str) :
  forallb xml_compatible role = true ->
  count_occ N.eq_dec role newline = 0 ->
  (length (split newline (generate_resume role)) = 28
   /\ (exists doc, word_document (generate_resume role) = Done doc
                   /\ length (paragraphs doc) = 28)
   /\ page_breaks (code (pdf_canvas A4 (generate_resume role))) = 0)
  /\ (length (split newline (generate_cover_letter role)) = 15
      /\ (exists doc, word_document (generate_cover_letter role) = Done doc
                      /\ length (paragraphs doc) = 15)
      /\ page_breaks (code (pdf_canvas A4 (generate_cover_letter role))) = 0)
  /\ (length (split newline (generate_portfolio role)) = 25
      /\ (exists doc, word_document (generate_portfolio role) = Done doc
                      /\ length (paragraphs doc) = 25)
      /\ page_breaks (code (pdf_canvas A4 (generate_portfolio role))) = 0).
Proof.
  intros Hxml H.
  pose proof (generate_resume_lines role) as Hr.
  pose proof (generate_cover_letter_lines role) as Hc.
  pose proof (generate_portfolio_lines role) as Hp.
  rewrite H, Nat.add_0_r in Hr, Hc, Hp.
  destruct (word_paragraph_count _ (generate_resume_compatible role Hxml))
    as (d1 & E1 & L1).
  destruct (word_paragraph_count _ (generate_cover_letter_compatible role Hxml))
    as (d2 & E2 & L2).
  destruct (word_paragraph_count _ (generate_portfolio_compatible role Hxml))
    as (d3 & E3 & L3).
  rewrite !A4_page_breaks, Hr, Hc, Hp.
  repeat split; try reflexivity.
  - exists d1. split; [exact E1 | congruence].
  - exists d2. split; [exact E2 | congruence].
  - exists d3. split; [exact E3 | congruence].
Qed.

Lemma generated_documents_one_page_witness :
  forallb xml_compatible (lit "Data Science") = true
  /\ count_occ N.eq_dec (lit "Data Science") newline = 0
  /\ page_breaks (code (pdf_canvas A4 (generate_resume (lit "Data Science")))) = 0.
Proof.
  split; [reflexivity|]. split; [reflexivity|].
  exact (proj2 (proj2 (proj1 (@generated_documents_one_page (lit "Data Science")
                                eq_refl eq_refl)))).
Defined.

(** X10: with a job description that is not blank, and a label, a job
    description and a candidate text XML can hold, the customised resume
    has 18 lines of its own plus one for every newline character in the
    label, the job description and the candidate text; the Word export
    returns a document of as many paragraphs and the PDF has a page break
    for every 55 of them. *)
Theorem customized_resume_length (role resume_input job_desc : str) :
  forallb isspace job_desc = false ->
  forallb xml_compatible role = true ->
  forallb xml_compatible resume_input = true ->
  forallb xml_compatible job_desc = true ->
  let text := customize_for_job role resume_input job_desc in
  let n := 18 + count_occ N.eq_dec role newline
              + count_occ N.eq_dec job_desc newline
              + count_occ N.eq_dec resume_input newline in
  length (split newline text) = n
  /\ (exists doc, word_document text = Done doc /\ length (paragraphs doc) = n)
  /\ page_breaks (code (pdf_canvas A4 text)) = n / 55.
Proof.
  intros H Hr Ht Hj text n.
  assert (E : length (split newline text) = n).
  { unfold text, n, customize_for_job. rewrite blank_test, H.
    rewrite lines_count, !count_occ_app. unfold char.
    generalize (count_occ N.eq_dec role newline),
               (count_occ N.eq_dec job_desc newline),
               (count_occ N.eq_dec resume_input newline).
    intros a b c. simpl. lia. }
  destruct (word_paragraph_count text
              (customize_for_job_compatible role resume_input job_desc Hr Ht Hj))
    as (doc & Hdoc & Hlen).
  rewrite A4_page_breaks, E. split; [reflexivity|]. split; [|reflexivity].
  exists doc. split; [exact Hdoc | congruence].
Qed.

Lemma customized_resume_length_witness :
  forallb isspace (lit "Python developer") = false
  /\ forallb xml_compatible (lit "Data Science") = true
  /\ forallb xml_compatible sample_text = true
  /\ forallb xml_compatible (lit "Python developer") = true
  /\ length (split newline
               (customize_for_job (lit "Data Science") sample_text (lit "Python developer")))
     = 19.
Proof.
  repeat (split; [reflexivity|]).
  exact (proj1 (@customized_resume_length (lit "Data Science") sample_text
                  (lit "Python developer") eq_refl eq_refl eq_refl eq_refl)).
Defined.

(** ** The submit handler on a resume text that is not blank *)

Lemma forallb_false_In (p : char -> bool) l :
  forallb p l = false <-> exists c, In c l /\ p c = false.
Proof.
  induction l as [|d l IH]; simpl.
  - split; [discriminate | intros (c & [] & _)].
  - destruct (p d) eqn:E; simpl.
    + rewrite IH. split.
      * intros (c & Hc & Hp). exists c. split; [right; exact Hc | exact Hp].
      * intros (c & [-> | Hc] & Hp); [congruence|]. exists c. split; assumption.
    + split; [|reflexivity]. intros _. exists d. split; [left; reflexivity | exact E].
Qed.

Lemma customize_for_job_incompatible role resume_input job_desc :
  forallb isspace job_desc = false ->
  forallb xml_compatible resume_input = false
  \/ forallb xml_compatible job_desc = false ->
  forallb xml_compatible (customize_for_job role resume_input job_desc) = false.
Proof.
  intros Hjd H. unfold customize_for_job. rewrite blank_test, Hjd.
  apply forallb_false_In.
  destruct H as [H | H]; apply forallb_false_In in H as (c & Hc & Hbad);
    exists c; (split; [|exact Hbad]); rewrite !in_app_iff; tauto.
Qed.

Section SubmitRuns.
Context {U : Unicode} {C : Classifier} {Ser : Serializers}.

(** X11: with a resume text that is not blank every entry of the menu
    calls the vectoriser once, on the cleaned text alone, and the model
    once, on its row, shows no warning and shows the result box with the
    predicted label.  The run then ends without an exception and offers
    the files of its entry (none for the prediction alone) for every entry
    but the resume, and for the resume too when the resume text and the
    job description hold only what XML can hold. *)
Theorem submit_runs_pipeline (option : menu_option)
    (resume_text job_description : str) :
  forallb isspace resume_text = false ->
  let role := classify (vectorize (clean_text resume_text)) in
  let result := run (submit true option resume_text job_description) in
  transform_calls (snd result) = [[clean_text resume_text]]
  /\ predict_calls (snd result) = [[vectorize (clean_text resume_text)]]
  /\ (forall body, ~ In (Warning body) (snd result))
  /\ In (Markdown (lit "<div class='result-box'>" ++ lit "Predicted Job Category: "
                   ++ role ++ lit "</div>") true) (snd result)
  /\ (option <> GenerateResume
      \/ (forallb xml_compatible resume_text = true
          /\ forallb xml_compatible job_description = true) ->
      fst result = Done tt
      /\ map fst (artifacts (snd result)) = offered_files option).
Proof.
  intros H role result. subst result role.
  rewrite (run_on_submit option _ job_description H).
  pose proof (classify_xml_compatible (vectorize (clean_text resume_text))) as Hrole.
  destruct option; unfold exported, classified.
  - cbn. repeat split; try (do 2 right; left; reflexivity).
    intros body Hin; repeat (destruct Hin as [Hin | Hin]; [discriminate Hin|]);
      exact Hin.
  - destruct (generate_word_file
                (customize_for_job (classify (vectorize (clean_text resume_text)))
                   resume_text job_description))
      as [word_file | e] eqn:E; cbn;
      (split; [reflexivity|]); (split; [reflexivity|]);
      (split; [intros body Hin;
               repeat (destruct Hin as [Hin | Hin]; [discriminate Hin|]); exact Hin|]);
      (split; [do 2 right; left; reflexivity|]).
    + intros _. split; reflexivity.
    + intros [Hne | [Ht Hj]]; [contradiction|].
      destruct (generate_word_file_ok _
                  (customize_for_job_compatible _ resume_text job_description
                     Hrole Ht Hj)) as (doc & _ & Hfile & _).
      rewrite Hfile in E. discriminate E.
  - destruct (generate_word_file_ok _ (generate_cover_letter_compatible _ Hrole))
      as (doc & _ & Hfile & _).
    rewrite Hfile. cbn. repeat split; try (do 2 right; left; reflexivity).
    intros body Hin; repeat (destruct Hin as [Hin | Hin]; [discriminate Hin|]);
      exact Hin.
  - destruct (generate_word_file_ok _ (generate_portfolio_compatible _ Hrole))
      as (doc & _ & Hfile & _).
    rewrite Hfile. cbn. repeat split; try (do 2 right; left; reflexivity).
    intros body Hin; repeat (destruct Hin as [Hin | Hin]; [discriminate Hin|]);
      exact Hin.
Qed.

(** X12: what the text area shows is what the files hold: a run shows one
    generated text at most, and when it shows one, either the Word export
    of that text returns, the run ends without an exception and the first
    two files it offers are the Word and the PDF export of that very text,
    or the Word export raises, the run ends with that exception and offers
    no file. *)
Theorem shown_text_is_exported (clicked : bool) (option : menu_option)
    (resume_text job_description : str) :
  let result := run (submit clicked option resume_text job_description) in
  length (text_areas (snd result)) <= 1
  /\ (forall label shown, In (label, shown) (text_areas (snd result)) ->
        match generate_word_file shown with
        | Done word_file =>
            fst result = Done tt
            /\ exists docx pdf rest,
                 artifacts (snd result)
                 = (docx, Bytes word_file)
                   :: (pdf, Bytes (generate_pdf_file shown)) :: rest
        | Raised _ e =>
            fst result = Raised unit e /\ artifacts (snd result) = []
        end).
Proof.
  intros result. unfold result. destruct clicked;
    [|cbn; split; [lia | intros ? ? []]].
  destruct (forallb isspace resume_text) eqn:H.
  - unfold run, submit, on_submit. rewrite blank_test, H.
    cbn. split; [lia | intros ? ? []].
  - rewrite (run_on_submit option _ job_description H).
    destruct option; unfold exported, classified;
      [cbn; split; [lia | intros ? ? []] | | | ];
      match goal with
      | |- context [generate_word_file ?t] =>
          destruct (generate_word_file t) as [word_file | e] eqn:E
      end; cbn [text_areas artifacts flat_map app fst snd length];
      (split; [lia|]); intros label shown [Hin | []];
      injection Hin as <- <-; rewrite E;
      (split; [reflexivity|]); try reflexivity; do 3 eexists; reflexivity.
Qed.

(** X13: for the resume all blank job descriptions are one: two runs whose
    job descriptions are both empty or all whitespace give the same
    outcome, elements and files. *)
Theorem blank_job_descriptions_agree (clicked : bool)
    (resume_text job_description1 job_description2 : str) :
  forallb isspace job_description1 = true ->
  forallb isspace job_description2 = true ->
  run (submit clicked GenerateResume resume_text job_description1)
  = run (submit clicked GenerateResume resume_text job_description2).
Proof.
  intros H1 H2. unfold run, submit, on_submit, customize_for_job.
  rewrite !blank_test, H1, H2. reflexivity.
Qed.

(** X14: a resume text of ASCII digits and punctuation only is not turned
    away: it is not blank, so the vectoriser is called, on the empty
    string, and the label the model gives for it is used. *)
Theorem symbols_only_resume_classified (option : menu_option)
    (resume_text job_description : str) :
  resume_text <> [] ->
  forallb is_ascii resume_text = true ->
  forallb not_letter_or_space resume_text = true ->
  let log := trace (submit true option resume_text job_description) in
  transform_calls log = [[lit ""]]
  /\ predict_calls log = [[vectorize (lit "")]]
  /\ In (Markdown (lit "<div class='result-box'>" ++ lit "Predicted Job Category: "
                   ++ classify (vectorize (lit "")) ++ lit "</div>") true) log.
Proof.
  intros Hne Hascii Hsym log.
  assert (Hblank : forallb isspace resume_text = false).
  { destruct resume_text as [|c s]; [contradiction|]. simpl in *.
    apply andb_true_iff in Hsym as [Hc _].
    unfold not_letter_or_space in Hc. apply negb_true_iff in Hc.
    apply orb_false_iff in Hc as [_ Hc]. rewrite Hc. reflexivity. }
  unfold log, trace. rewrite (run_on_submit option _ job_description Hblank).
  unfold classified. rewrite (clean_text_nothing_kept _ Hascii Hsym).
  destruct option; unfold exported;
    try match goal with
        | |- context [generate_word_file ?t] => destruct (generate_word_file t)
        end; cbn; repeat split; do 2 right; left; reflexivity.
Qed.

(** X18: the resume with a job description that is not blank, when the
    resume text or the job description holds a character XML cannot hold:
    the model is asked and the customised resume is shown, then the Word
    export raises [ValueError]; the run ends there and offers no file. *)
Theorem resume_export_raises (resume_text job_description : str) :
  forallb isspace resume_text = false ->
  forallb isspace job_description = false ->
  forallb xml_compatible resume_text = false
  \/ forallb xml_compatible job_description = false ->
  let role := classify (vectorize (clean_text resume_text)) in
  let result := run (submit true GenerateResume resume_text job_description) in
  result
  = (Raised unit (lit "ValueError"),
     classified resume_text
     ++ [TextArea (lit "Generated Resume")
           (customize_for_job role resume_text job_description) 350])
  /\ artifacts (snd result) = [].
Proof.
  intros H Hjd Hbad role result. subst result role.
  rewrite (run_on_submit GenerateResume _ job_description H).
  unfold exported.
  rewrite (generate_word_file_bad _
             (customize_for_job_incompatible _ resume_text job_description
                Hjd Hbad)).
  split; [reflexivity|]. unfold classified. cbn. reflexivity.
Qed.

End SubmitRuns.

Lemma submit_runs_pipeline_witness :
  forallb isspace sample_text = false
  /\ map fst (artifacts (trace (@submit BasicLatin_tables sample_classifier
                                  sample_serializers true GenerateCoverLetter
                                  sample_text (lit ""))))
     = [lit "cover_letter.docx"; lit "cover_letter.pdf"].
Proof.
  split; [reflexivity|].
  destruct (@submit_runs_pipeline BasicLatin_tables sample_classifier
              sample_serializers GenerateCoverLetter sample_text (lit "") eq_refl)
    as (_ & _ & _ & _ & Hdone).
  refine (proj2 (Hdone (or_introl _))). discriminate.
Defined.

Lemma shown_text_is_exported_witness :
  length (text_areas (trace (@submit BasicLatin_tables sample_classifier
                               sample_serializers true GenerateResume
                               sample_text (lit "Python developer")))) <= 1.
Proof.
  exact (proj1 (@shown_text_is_exported BasicLatin_tables sample_classifier
                  sample_serializers true GenerateResume sample_text
                  (lit "Python developer"))).
Defined.

Lemma blank_job_descriptions_agree_witness :
  forallb isspace (lit "") = true
  /\ forallb isspace (lit " " ++ nl) = true
  /\ run (@submit BasicLatin_tables sample_classifier sample_serializers true
            GenerateResume sample_text (lit ""))
     = run (@submit BasicLatin_tables sample_classifier sample_serializers true
              GenerateResume sample_text (lit " " ++ nl)).
Proof.
  split; [reflexivity|]. split; [reflexivity|].
  exact (@blank_job_descriptions_agree BasicLatin_tables sample_classifier
           sample_serializers true sample_text (lit "") (lit " " ++ nl)
           eq_refl eq_refl).
Defined.

Lemma symbols_only_resume_classified_witness :
  lit "+1-555-010-9999" <> []
  /\ forallb is_ascii (lit "+1-555-010-9999") = true
  /\ forallb not_letter_or_space (lit "+1-555-010-9999") = true
  /\ transform_calls (trace (@submit BasicLatin_tables sample_classifier
                               sample_serializers true PredictJobCategory
                               (lit "+1-555-010-9999") (lit "")))
     = [[lit ""]].
Proof.
  assert (Hne : lit "+1-555-010-9999" <> []) by discriminate.
  split; [exact Hne|]. split; [reflexivity|]. split; [reflexivity|].
  exact (proj1 (@symbols_only_resume_classified BasicLatin_tables sample_classifier
                  sample_serializers PredictJobCategory (lit "+1-555-010-9999")
                  (lit "") Hne eq_refl eq_refl)).
Defined.

Lemma resume_export_raises_witness :
  forallb isspace (lit "a" ++ [12%N] ++ lit "b") = false
  /\ forallb isspace (lit "Python developer") = false
  /\ forallb xml_compatible (lit "a" ++ [12%N] ++ lit "b") = false
  /\ artifacts (trace (@submit BasicLatin_tables sample_classifier sample_serializers
                         true GenerateResume (lit "a" ++ [12%N] ++ lit "b")
                         (lit "Python developer")))
     = [].
Proof.
  repeat (split; [reflexivity|]).
  exact (proj2 (@resume_export_raises BasicLatin_tables sample_classifier
                  sample_serializers (lit "a" ++ [12%N] ++ lit "b")
                  (lit "Python developer") eq_refl eq_refl (or_introl eq_refl))).
Defined.

(** ** The generators lose nothing of what they embed *)

(** X15: the portfolio page determines the candidate text: for one label,
    two texts that give the same page are the same text. *)
Theorem generate_portfolio_website_injective (role text1 text2 : str) :
  generate_portfolio_website role text1 = generate_portfolio_website role text2 ->
  text1 = text2.
Proof.
  unfold generate_portfolio_website. intros H.
  repeat apply app_inv_head in H. apply app_inv_tail in H. exact H.
Qed.

Lemma generate_portfolio_website_injective_witness :
  sample_text = sample_text.
Proof.
  exact (@generate_portfolio_website_injective (lit "HR") sample_text sample_text
           eq_refl).
Defined.

(** X16: the resume, the cover letter and the portfolio profile each
    determine the label: two labels that give the same document are the
    same label. *)
Theorem generators_injective (role1 role2 : str) :
  (generate_resume role1 = generate_resume role2 -> role1 = role2)
  /\ (generate_cover_letter role1 = generate_cover_letter role2 -> role1 = role2)
  /\ (generate_portfolio role1 = generate_portfolio role2 -> role1 = role2).
Proof.
  unfold generate_resume, generate_cover_letter, generate_portfolio.
  split; [|split]; intros H;
    repeat apply app_inv_head in H; apply app_inv_tail in H; exact H.
Qed.

Lemma generators_injective_witness :
  lit "HR" = lit "HR".
Proof.
  exact (proj1 (@generators_injective (lit "HR") (lit "HR")) eq_refl).
Defined.

(** ** The export theorems at the stand-in serialisers *)

Lemma word_document_round_trip_witness :
  forallb xml_compatible sample_text = true
  /\ ~ In carriage_return sample_text
  /\ exists doc,
       @generate_word_file sample_serializers sample_text
       = Done {| getvalue := sample_docx_save doc; tell := 0 |}
       /\ join newline (map p_text (paragraphs doc)) = sample_text.
Proof.
  assert (Hcr : ~ In carriage_return sample_text).
  { intros H. vm_compute in H.
    repeat (destruct H as [H | H]; [discriminate H|]). exact H. }
  split; [reflexivity|]. split; [exact Hcr|].
  destruct (@word_document_round_trip sample_serializers sample_text eq_refl)
    as (doc & Hfile & _ & Hplain).
  exists doc. split; [exact Hfile | exact (Hplain Hcr)].
Defined.

Lemma generate_word_file_raises_iff_witness :
  @generate_word_file sample_serializers (lit "a" ++ [0%N])
  = Raised BytesIO (lit "ValueError").
Proof.
  exact (proj2 (proj1 (@generate_word_file_raises_iff sample_serializers
                         (lit "a" ++ [0%N]))) eq_refl).
Defined.

Lemma pdf_draws_every_line_witness :
  drawn_strings (code (pdf_canvas (10, 10)%Q (lit "a" ++ nl ++ lit "b")))
  = [lit "a"; lit "b"].
Proof.
  exact (proj1 (proj2 (@pdf_draws_every_line sample_serializers (10, 10)%Q
                         (lit "a" ++ nl ++ lit "b")))).
Defined.

Lemma generate_pdf_file_pages_witness :
  page_breaks (code (pdf_canvas A4 (repeat newline 120))) = 121 / 55.
Proof.
  exact (proj1 (proj2 (@generate_pdf_file_pages sample_serializers
                         (repeat newline 120)))).
Defined.
